(** * AppConfig agent HTTP server: flag evaluation

    A shallow embedding of [examples/agent-http-server.py]: the values
    that [json.load] produces, the exceptions the handler methods can
    raise, and the methods [evaluate_condition], [evaluate_flag],
    [get_config_path] and [handle_evaluate] of [AppConfigAgentHandler],
    followed by the properties of the flag resolution engine. *)

From Stdlib Require Import Bool Ascii String List ZArith SpecFloat.
Import ListNotations.
Local Open Scope string_scope.
Local Open Scope list_scope.

(** ** Values

    What [json.load] / [json.loads] return: [None], [bool], [int],
    [float], [str], [list] and [dict] with [str] keys.  A [str] is kept
    as its UTF-8 bytes: emptiness, equality, containment of an ASCII
    pattern and splitting at an ASCII character agree on bytes and on
    code points.  A [dict] is an association list in insertion order;
    looking a key up takes its first binding. *)

#[warning="-register-all"]
Inductive pyval : Type :=
| PNone
| PBool (b : bool)
| PInt (z : Z)
| PFloat (f : spec_float)
| PStr (s : string)
| PList (l : list pyval)
| PDict (m : list (string * pyval)).

(** Python truth value testing, as used by [not x] and [all([...])]. *)
Definition truthy (v : pyval) : bool :=
  match v with
  | PNone => false
  | PBool b => b
  | PInt z => negb (Z.eqb z 0)
  | PFloat (S754_zero _) => false
  | PFloat _ => true
  | PStr s => negb (String.eqb s "")
  | PList [] => false
  | PList (_ :: _) => true
  | PDict [] => false
  | PDict (_ :: _) => true
  end.

(** [v == s] for a [str] [s]: only an equal [str] compares equal. *)
Definition py_eq_str (v : pyval) (s : string) : bool :=
  match v with
  | PStr t => String.eqb t s
  | _ => false
  end.

(** [list], [dict] are unhashable; everything else JSON yields is hashable. *)
Definition hashable (v : pyval) : bool :=
  match v with
  | PList _ | PDict _ => false
  | _ => true
  end.

Fixpoint dict_lookup (k : string) (m : list (string * pyval)) : option pyval :=
  match m with
  | [] => None
  | (k', v) :: m' => if String.eqb k' k then Some v else dict_lookup k m'
  end.

(** ** Exceptions

    The classes of [Exception] the modelled code can raise. *)

Inductive exn : Type :=
| AttributeError
| TypeError
| IndexError
| ValueError
| JSONDecodeError
| OSError.

Inductive exc (A : Type) : Type :=
| Ok (a : A)
| Raise (e : exn).

Arguments Ok {A} a.
Arguments Raise {A} e.

Definition bind {A B : Type} (c : exc A) (k : A -> exc B) : exc B :=
  match c with
  | Ok a => k a
  | Raise e => Raise e
  end.

Declare Scope exc_scope.
Delimit Scope exc_scope with exc.
Notation "x <- c ;; k" := (bind c (fun x => k))
  (at level 61, c at next level, right associativity) : exc_scope.
Local Open Scope exc_scope.

(** ** Built-in operations used by the handler *)

(** [obj.get(key, default)]: only a [dict] has the method; the key is
    hashed before the lookup; every key of a JSON object is a [str]. *)
Definition py_get (obj key default : pyval) : exc pyval :=
  match obj with
  | PDict m =>
      if hashable key then
        match key with
        | PStr k =>
            match dict_lookup k m with
            | Some v => Ok v
            | None => Ok default
            end
        | _ => Ok default
        end
      else Raise TypeError
  | _ => Raise AttributeError
  end.

(** Substring test on [str]. *)
Fixpoint str_contains (needle hay : string) : bool :=
  if prefix needle hay then true
  else match hay with
       | EmptyString => false
       | String _ rest => str_contains needle rest
       end.

(** [needle in container] for a [str] needle: substring of a [str],
    element of a [list], key of a [dict]; other values are not
    iterable. *)
Definition py_in (needle : string) (container : pyval) : exc bool :=
  match container with
  | PStr s => Ok (str_contains needle s)
  | PList l => Ok (existsb (fun v => py_eq_str v needle) l)
  | PDict m => Ok (existsb (fun kv => String.eqb (fst kv) needle) m)
  | _ => Raise TypeError
  end.

(** [s.split(sep)] for a one-character separator: one more piece than
    there are separators. *)
Fixpoint str_split (sep : ascii) (s : string) : list string :=
  match s with
  | EmptyString => [EmptyString]
  | String c rest =>
      if Ascii.eqb c sep then EmptyString :: str_split sep rest
      else match str_split sep rest with
           | piece :: pieces => String c piece :: pieces
           | [] => [String c EmptyString]
           end
  end.

(** [obj.split(sep)]: only [str] has the method. *)
Definition py_split (obj : pyval) (sep : ascii) : exc (list string) :=
  match obj with
  | PStr s => Ok (str_split sep s)
  | _ => Raise AttributeError
  end.

(** [l[i]] on a list, for [i >= 0]. *)
Definition py_index {A : Type} (l : list A) (i : nat) : exc A :=
  match nth_error l i with
  | Some a => Ok a
  | None => Raise IndexError
  end.

(** The one-character strings of a [str] (bytewise, see above). *)
Fixpoint str_chars (s : string) : list pyval :=
  match s with
  | EmptyString => []
  | String c rest => PStr (String c EmptyString) :: str_chars rest
  end.

(** [for x in obj]: the items of a [list], the keys of a [dict], the
    characters of a [str]; other values are not iterable. *)
Definition py_iter (obj : pyval) : exc (list pyval) :=
  match obj with
  | PList l => Ok l
  | PDict m => Ok (map (fun kv => PStr (fst kv)) m)
  | PStr s => Ok (str_chars s)
  | _ => Raise TypeError
  end.

Definition dquote : ascii := Eval cbv in ascii_of_nat 34.
Definition squote : ascii := Eval cbv in ascii_of_nat 39.

(** ** evaluate_condition *)

Definition evaluate_condition (condition context : pyval) : exc bool :=
  if negb (truthy condition) then Ok true
  else
    recognised <- py_in "user.role ==" condition ;;
    if (recognised : bool) then
      double <- py_in (String dquote EmptyString) condition ;;
      parts <- py_split condition (if (double : bool) then dquote else squote) ;;
      expected_role <- py_index parts 1 ;;
      user <- py_get context (PStr "user") (PDict []) ;;
      user_role <- py_get user (PStr "role") PNone ;;
      Ok (py_eq_str user_role expected_role)
    else Ok false.

(** ** evaluate_flag *)

(** What the file at a path is to [os.path.exists], [open] and
    [json.load]. *)
Inductive file_state : Type :=
| NoSuchFile
| Unreadable
| Malformed
| Document (config_data : pyval).

Definition file_system : Type := string -> file_state.

(** [os.path.exists(path)] *)
Definition path_exists (fs : file_system) (path : string) : bool :=
  match fs path with
  | NoSuchFile => false
  | _ => true
  end.

(** [with open(config_path, 'r') as f: config_data = json.load(f)] *)
Definition load_config (fs : file_system) (config_path : string) : exc pyval :=
  match fs config_path with
  | NoSuchFile => Raise OSError
  | Unreadable => Raise OSError
  | Malformed => Raise JSONDecodeError
  | Document config_data => Ok config_data
  end.

(** The result dictionaries [{'value': v, 'reason': r}]. *)
Definition result (value : pyval) (reason : string) : pyval :=
  PDict [("value", value); ("reason", PStr reason)].

(** The [for rule in rules] loop: [Some v] when it returns from inside
    the loop with value [v], [None] when it runs to its end. *)
Fixpoint evaluate_rules (rules : list pyval) (context : pyval)
  : exc (option pyval) :=
  match rules with
  | [] => Ok None
  | rule :: rest =>
      condition <- py_get rule (PStr "condition") PNone ;;
      rule_value <- py_get rule (PStr "value") PNone ;;
      matched <- evaluate_condition condition context ;;
      if (matched : bool) then Ok (Some rule_value)
      else evaluate_rules rest context
  end.

(** The [try] block after the document is loaded. *)
Definition evaluate_document (config_data flag_key context default_value : pyval)
  : exc pyval :=
  features <- py_get config_data (PStr "features") (PDict []) ;;
  flag_config <- py_get features flag_key PNone ;;
  if negb (truthy flag_config) then Ok (result default_value "FLAG_NOT_FOUND")
  else
    flag_default <- py_get flag_config (PStr "default") default_value ;;
    rules <- py_get flag_config (PStr "rules") (PList []) ;;
    items <- py_iter rules ;;
    hit <- evaluate_rules items context ;;
    match hit with
    | Some rule_value => Ok (result rule_value "TARGETING_MATCH")
    | None => Ok (result flag_default "DEFAULT")
    end.

(** The whole [try] block. *)
Definition evaluate_flag_try (fs : file_system) (config_path : string)
    (flag_key context default_value : pyval) : exc pyval :=
  config_data <- load_config fs config_path ;;
  evaluate_document config_data flag_key context default_value.

(** [try: ... except Exception: return {'value': default_value,
    'reason': 'ERROR'}] *)
Definition evaluate_flag (fs : file_system) (config_path : string)
    (flag_key context default_value : pyval) : pyval :=
  match evaluate_flag_try fs config_path flag_key context default_value with
  | Ok r => r
  | Raise _ => result default_value "ERROR"
  end.

(** ** get_config_path and handle_evaluate *)

(** [os.fspath(v)]: of the values JSON yields only a [str] is a path. *)
Definition py_fspath (v : pyval) : exc string :=
  match v with
  | PStr s => Ok s
  | _ => Raise TypeError
  end.

Fixpoint ends_with_sep (s : string) : bool :=
  match s with
  | EmptyString => false
  | String c EmptyString => Ascii.eqb c "/"
  | String _ rest => ends_with_sep rest
  end.

(** One round of the loop of [posixpath.join]. *)
Definition join_step (path b : string) : string :=
  if prefix "/" b then b
  else if orb (String.eqb path "") (ends_with_sep path) then path ++ b
  else path ++ "/" ++ b.

(** [os.path.join(a, *p)] on [str] components. *)
Definition path_join (a : string) (p : list string) : string :=
  fold_left join_step p a.

(** An HTTP response: the status line and the JSON value written as the
    body. *)
Inductive response : Type :=
| Response (status : Z) (body : pyval).

Definition send_error_response (status_code : Z) (message : string) : response :=
  Response status_code (PDict [("error", PStr message)]).

Section Handler.

(** The environment variable [AGENT_PATH], the files on disk, and the
    interpreter's rendering [str(e)] of an exception. *)
Variable AGENT_PATH : option string.
Variable fs : file_system.
Variable exn_str : exn -> string.

Definition get_config_path (application environment profile : pyval)
  : exc string :=
  let agent_path :=
    match AGENT_PATH with
    | Some p => p
    | None => "/opt/appconfig-agent"
    end in
  application <- py_fspath application ;;
  environment <- py_fspath environment ;;
  profile <- py_fspath profile ;;
  Ok (path_join agent_path
        ["configs"; application; environment; profile; "config.json"]).

(** The [try] block of [handle_evaluate]; [request] is what reading
    and parsing the request body gives (lines 45-47). *)
Definition handle_evaluate_try (request : exc pyval) : exc response :=
  request_data <- request ;;
  flag_key <- py_get request_data (PStr "flagKey") PNone ;;
  application <- py_get request_data (PStr "application") PNone ;;
  environment <- py_get request_data (PStr "environment") PNone ;;
  configuration_profile <-
    py_get request_data (PStr "configurationProfile") PNone ;;
  context <- py_get request_data (PStr "context") (PDict []) ;;
  default_value <- py_get request_data (PStr "defaultValue") PNone ;;
  if negb (forallb truthy
             [flag_key; application; environment; configuration_profile])
  then Ok (send_error_response 400 "Missing required parameters")
  else
    config_path <-
      get_config_path application environment configuration_profile ;;
    if negb (path_exists fs config_path)
    then Ok (send_error_response 404
               ("Configuration not found: " ++ config_path))
    else
      Ok (Response 200
            (evaluate_flag fs config_path flag_key context default_value)).

Definition handle_evaluate (request : exc pyval) : response :=
  match handle_evaluate_try request with
  | Ok r => r
  | Raise JSONDecodeError =>
      send_error_response 400 "Invalid JSON in request body"
  | Raise e =>
      send_error_response 500 ("Internal server error: " ++ exn_str e)
  end.

End Handler.

(** ** Notions used in the statements *)

(** The value [m.get(k, d)] gives on a dictionary. *)
Definition get_or (k : string) (m : list (string * pyval)) (d : pyval) : pyval :=
  match dict_lookup k m with
  | Some v => v
  | None => d
  end.

(** Whether a rule's condition matches: lines 109 and 112. *)
Definition rule_matches (rule context : pyval) : exc bool :=
  condition <- py_get rule (PStr "condition") PNone ;;
  evaluate_condition condition context.

(** The iteration over a flag definition's rules: lines 107-116. *)
Definition run_rules (flag_config : list (string * pyval)) (context : pyval)
  : exc (option pyval) :=
  items <- py_iter (get_or "rules" flag_config (PList [])) ;;
  evaluate_rules items context.

(** The [features] mapping of a document, when it has one (an absent
    key stands for the empty mapping, line 94). *)
Definition features_of (config_data : list (string * pyval))
  : option (list (string * pyval)) :=
  match dict_lookup "features" config_data with
  | None => Some []
  | Some (PDict features) => Some features
  | Some _ => None
  end.

(** A context whose [user] entry, when present, is a mapping. *)
Definition user_is_mapping (context : list (string * pyval)) : bool :=
  match dict_lookup "user" context with
  | None => true
  | Some (PDict _) => true
  | Some _ => false
  end.

(** The value reached from a context by [user] then [role]; a missing
    key gives [None]. *)
Definition role_of (context : list (string * pyval)) : pyval :=
  match dict_lookup "user" context with
  | Some (PDict user) => get_or "role" user PNone
  | _ => PNone
  end.

(** Walking a dotted path through nested mappings, as the
    specification describes the resolution of [<dotted.path>]: each
    segment is a key lookup, a missing key or a non-mapping on the way
    gives no value. *)
Fixpoint resolve_path (segments : list string) (context : pyval)
  : option pyval :=
  match segments with
  | [] => Some context
  | segment :: rest =>
      match context with
      | PDict m =>
          match dict_lookup segment m with
          | Some v => resolve_path rest v
          | None => None
          end
      | _ => None
      end
  end.

(** The condition text [<path> == Q<literal>Q] for a quote character
    [Q]. *)
Definition equality_condition (path : string) (quote : ascii) (literal : string)
  : string :=
  (path ++ " == " ++ String quote (literal ++ String quote ""))%string.

(** A literal that the quote character [q] delimits: [q] does not occur
    in it, and when [q] is the single quote no double quote does. *)
Definition quotes_literal (q : ascii) (literal : string) : Prop :=
  str_contains (String q "") literal = false /\
  (q = dquote \/
   q = squote /\ str_contains (String dquote "") literal = false).



(** The four reason codes. *)
Definition reason_codes : list string :=
  ["FLAG_NOT_FOUND"; "TARGETING_MATCH"; "DEFAULT"; "ERROR"].

(** ** Sample data *)

Definition sample_path : string :=
  "/opt/appconfig-agent/configs/shop/prod/main/config.json".

Definition rule_of (condition : string) (value : pyval) : pyval :=
  PDict [("condition", PStr condition); ("value", value)].

Definition admin_condition : string :=
  equality_condition "user.role" dquote "admin".

Definition sample_features : list (string * pyval) :=
  [("beta",
     PDict [("default", PBool false);
            ("rules", PList [rule_of admin_condition (PBool true)])]);
   ("empty", PDict []);
   ("unquoted",
     PDict [("default", PInt 1);
            ("rules", PList [rule_of "user.role == admin" (PInt 2)])]);
   ("ordered",
     PDict [("rules",
              PList [PDict [("value", PInt 1)]; PDict [("value", PInt 2)]])]);
   ("bare",
     PDict [("default", PInt 5);
            ("rules", PList [PDict [("condition", PStr admin_condition)]])]);
   ("tiered",
     PDict [("default", PInt 0);
            ("rules",
              PList [rule_of admin_condition (PInt 10);
                     PDict [("value", PInt 20)];
                     PDict [("value", PInt 30)]])])].

Definition sample_config : list (string * pyval) :=
  [("features", PDict sample_features)].

Definition sample_document : pyval := PDict sample_config.

Definition sample_fs : file_system :=
  fun path => if String.eqb path sample_path then Document sample_document
              else NoSuchFile.

Definition broken_fs : file_system :=
  fun path => if String.eqb path sample_path then Malformed else NoSuchFile.

Definition sample_request (flag_key : string) (context : pyval) : pyval :=
  PDict [("flagKey", PStr flag_key); ("application", PStr "shop");
         ("environment", PStr "prod"); ("configurationProfile", PStr "main");
         ("context", context); ("defaultValue", PBool false)].

Definition user_with_role (role : string) : pyval :=
  PDict [("user", PDict [("role", PStr role)])].

Definition tenant_context : pyval :=
  PDict [("tenant", PDict [("plan", PStr "pro")])].

Definition no_message : exn -> string := fun _ => "".

(** ** do_GET and do_POST *)

(** What a handler method sends: the status line, the [Content-Type]
    header when one is sent, and the JSON value written as the body
    when one is written. *)
Record reply : Type := {
  reply_status : Z;
  reply_content_type : option string;
  reply_body : option pyval
}.

(** [send_response(status)], the JSON content type, [end_headers()]
    and the body. *)
Definition json_reply (r : response) : reply :=
  match r with
  | Response status body =>
      {| reply_status := status;
         reply_content_type := Some "application/json";
         reply_body := Some body |}
  end.

(** [send_response(404)] and [end_headers()]. *)
Definition bare_not_found : reply :=
  {| reply_status := 404; reply_content_type := None; reply_body := None |}.

Definition health_document : pyval :=
  PDict [("status", PStr "healthy"); ("service", PStr "appconfig-agent")].

Definition do_GET (path : string) : reply :=
  if String.eqb path "/health" then json_reply (Response 200 health_document)
  else bare_not_found.

Definition do_POST (AGENT_PATH : option string) (fs : file_system)
    (exn_str : exn -> string) (path : string) (request : exc pyval) : reply :=
  if String.eqb path "/evaluate"
  then json_reply (handle_evaluate AGENT_PATH fs exn_str request)
  else bare_not_found.

(** ** Notions used in the further statements *)

(** The request parameters line 58 requires. *)
Definition required_keys : list string :=
  ["flagKey"; "application"; "environment"; "configurationProfile"].

Definition required_values (request : list (string * pyval)) : list pyval :=
  map (fun k => get_or k request PNone) required_keys.

(** The parameters that make up the configuration path. *)
Definition path_keys : list string :=
  ["application"; "environment"; "configurationProfile"].

Definition is_str (v : pyval) : bool :=
  match v with
  | PStr _ => true
  | _ => false
  end.

(** The base directory [get_config_path] starts from. *)
Definition agent_path_of (AGENT_PATH : option string) : string :=
  match AGENT_PATH with
  | Some p => p
  | None => "/opt/appconfig-agent"
  end.

(** A path component that is not empty, does not begin with the
    separator and does not end with it. *)
Definition plain_segment (s : string) : bool :=
  negb (String.eqb s "") && negb (prefix "/" s) && negb (ends_with_sep s).

(** The body of an error response. *)
Definition error_body (message : string) : pyval :=
  PDict [("error", PStr message)].

(** A second document that defines the flag [beta] as the sample
    does, beside other entries. *)
Definition other_features : list (string * pyval) :=
  [("gamma", PBool true);
   ("beta",
     PDict [("default", PBool false);
            ("rules", PList [rule_of admin_condition (PBool true)])])].

Definition other_config : list (string * pyval) :=
  [("version", PInt 3); ("features", PDict other_features)].

Definition other_fs : file_system := fun _ => Document (PDict other_config).

(** A document whose flags begin with an equality on [user.role] and
    continue with a rule that has no condition: [guarded] gives that
    rule a value, [silent] does not. *)
Definition guarded_features : list (string * pyval) :=
  [("guarded",
     PDict [("default", PInt 0);
            ("rules",
              PList [rule_of admin_condition (PInt 1);
                     PDict [("value", PInt 2)]])]);
   ("silent",
     PDict [("default", PInt 0);
            ("rules",
              PList [rule_of admin_condition (PInt 1);
                     PDict [("note", PStr "catch-all")]])])].

Definition guarded_fs : file_system :=
  fun _ => Document (PDict [("features", PDict guarded_features)]).

(** The context [{"user": null}]. *)
Definition null_user : pyval := PDict [("user", PNone)].

(** The literal [a"b], and the condition [user.role == 'a"b'] that
    quotes it with single quotes. *)
Definition nested_quote_literal : string :=
  ("a" ++ String dquote "b")%string.

Definition nested_quote_condition : string :=
  equality_condition "user.role" squote nested_quote_literal.

(** ** Basic facts about the built-in operations *)

Lemma py_get_dict (m : list (string * pyval)) (k : string) (d : pyval) :
  py_get (PDict m) (PStr k) d = Ok (get_or k m d).
Proof.
  unfold py_get, get_or; simpl.
  destruct (dict_lookup k m); reflexivity.
Qed.

Lemma py_get_ok_dict (obj key d v : pyval) :
  py_get obj key d = Ok v -> exists m, obj = PDict m.
Proof.
  destruct obj; simpl; try discriminate.
  intros _. now exists m.
Qed.

Lemma truthy_dict_nonempty (m : list (string * pyval)) :
  m <> [] -> truthy (PDict m) = true.
Proof.
  destruct m; [congruence | reflexivity].
Qed.

Lemma bind_ok {A B : Type} (c : exc A) (k : A -> exc B) (b : B) :
  bind c k = Ok b -> exists a, c = Ok a /\ k a = Ok b.
Proof.
  destruct c as [a | e]; simpl; [| discriminate].
  intros H. now exists a.
Qed.

(** ** The rule loop *)

Lemma rule_matches_dict (rule context : pyval) (b : bool) :
  rule_matches rule context = Ok b -> exists m, rule = PDict m.
Proof.
  unfold rule_matches. intros H.
  apply bind_ok in H as (c & Hc & _).
  now apply py_get_ok_dict in Hc.
Qed.

Lemma evaluate_rules_skip (rule : pyval) (rest : list pyval) (context : pyval) :
  rule_matches rule context = Ok false ->
  evaluate_rules (rule :: rest) context = evaluate_rules rest context.
Proof.
  intros H. destruct (rule_matches_dict _ _ _ H) as [m ->].
  unfold rule_matches in H. rewrite py_get_dict in H. cbn [bind] in H.
  cbn [evaluate_rules]. rewrite !py_get_dict. cbn [bind]. now rewrite H.
Qed.

Lemma evaluate_rules_hit (m : list (string * pyval)) (rest : list pyval)
    (context : pyval) :
  rule_matches (PDict m) context = Ok true ->
  evaluate_rules (PDict m :: rest) context = Ok (Some (get_or "value" m PNone)).
Proof.
  intros H. unfold rule_matches in H. rewrite py_get_dict in H. cbn [bind] in H.
  cbn [evaluate_rules]. rewrite !py_get_dict. cbn [bind]. now rewrite H.
Qed.

Lemma evaluate_rules_raise (rule : pyval) (rest : list pyval) (context : pyval)
    (e : exn) :
  rule_matches rule context = Raise e ->
  exists e', evaluate_rules (rule :: rest) context = Raise e'.
Proof.
  intros H. destruct rule; try (now eexists).
  unfold rule_matches in H. rewrite py_get_dict in H. cbn [bind] in H.
  cbn [evaluate_rules]. rewrite !py_get_dict. cbn [bind]. rewrite H.
  now eexists.
Qed.

Lemma evaluate_rules_first_match (pre post : list pyval)
    (m : list (string * pyval)) (context : pyval) :
  Forall (fun rule => rule_matches rule context = Ok false) pre ->
  rule_matches (PDict m) context = Ok true ->
  evaluate_rules (pre ++ PDict m :: post) context
  = Ok (Some (get_or "value" m PNone)).
Proof.
  intros Hpre Hhit. induction Hpre as [| rule pre Hrule _ IH].
  - now apply evaluate_rules_hit.
  - rewrite <- app_comm_cons. now rewrite evaluate_rules_skip.
Qed.

Lemma evaluate_rules_no_match (rules : list pyval) (context : pyval) :
  Forall (fun rule => rule_matches rule context = Ok false) rules ->
  evaluate_rules rules context = Ok None.
Proof.
  induction 1 as [| rule rules Hrule _ IH]; [reflexivity |].
  now rewrite evaluate_rules_skip.
Qed.

(** ** evaluate_flag on a loaded document *)

Lemma py_get_features (config_data features : list (string * pyval)) :
  features_of config_data = Some features ->
  py_get (PDict config_data) (PStr "features") (PDict []) = Ok (PDict features).
Proof.
  rewrite py_get_dict. unfold features_of, get_or.
  destruct (dict_lookup "features" config_data) as [[] |];
    intros H; inversion H; reflexivity.
Qed.

Lemma evaluate_flag_loaded (fs : file_system) (config_path : string)
    (config_data flag_key context default_value : pyval) :
  fs config_path = Document config_data ->
  evaluate_flag fs config_path flag_key context default_value
  = match evaluate_document config_data flag_key context default_value with
    | Ok r => r
    | Raise _ => result default_value "ERROR"
    end.
Proof.
  intros H. unfold evaluate_flag, evaluate_flag_try, load_config.
  now rewrite H.
Qed.

Lemma evaluate_flag_not_loaded (fs : file_system) (config_path : string)
    (flag_key context default_value : pyval) :
  (forall config_data, fs config_path <> Document config_data) ->
  evaluate_flag fs config_path flag_key context default_value
  = result default_value "ERROR".
Proof.
  intros H. unfold evaluate_flag, evaluate_flag_try, load_config.
  destruct (fs config_path) eqn:E; try reflexivity.
  now destruct (H config_data).
Qed.

(** A falsy entry under the flag key is reported as a missing flag. *)
Lemma evaluate_flag_falsy_definition (fs : file_system) (config_path : string)
    (config_data features : list (string * pyval)) (k : string)
    (context default_value : pyval) :
  fs config_path = Document (PDict config_data) ->
  features_of config_data = Some features ->
  truthy (get_or k features PNone) = false ->
  evaluate_flag fs config_path (PStr k) context default_value
  = result default_value "FLAG_NOT_FOUND".
Proof.
  intros Hdoc Hfeat Hfalsy. rewrite (evaluate_flag_loaded _ _ _ _ _ _ Hdoc).
  unfold evaluate_document. rewrite (py_get_features _ _ Hfeat). cbn [bind].
  rewrite py_get_dict. cbn [bind]. now rewrite Hfalsy.
Qed.

Section DefinedFlag.

(** A document at [config_path] whose [features] holds a non-empty
    definition for the flag [k]. *)
Variables (fs : file_system) (config_path : string).
Variables (config_data features flag_config : list (string * pyval)).
Variable k : string.
Hypothesis Hdocument : fs config_path = Document (PDict config_data).
Hypothesis Hfeatures : features_of config_data = Some features.
Hypothesis Hflag : dict_lookup k features = Some (PDict flag_config).
Hypothesis Hnonempty : flag_config <> [].

Lemma evaluate_flag_defined (context default_value : pyval) :
  evaluate_flag fs config_path (PStr k) context default_value
  = match run_rules flag_config context with
    | Ok (Some rule_value) => result rule_value "TARGETING_MATCH"
    | Ok None => result (get_or "default" flag_config default_value) "DEFAULT"
    | Raise _ => result default_value "ERROR"
    end.
Proof.
  rewrite (evaluate_flag_loaded _ _ _ _ _ _ Hdocument).
  unfold evaluate_document. rewrite (py_get_features _ _ Hfeatures).
  cbn [bind]. rewrite py_get_dict. unfold get_or at 1. rewrite Hflag.
  cbn [bind]. rewrite (truthy_dict_nonempty _ Hnonempty). cbn [negb].
  rewrite !py_get_dict. cbn [bind]. unfold run_rules.
  destruct (py_iter (get_or "rules" flag_config (PList []))) as [items | e];
    cbn [bind]; [| reflexivity].
  destruct (evaluate_rules items context) as [[v |] | e]; reflexivity.
Qed.

Lemma run_rules_list (rules : list pyval) (context : pyval) :
  dict_lookup "rules" flag_config = Some (PList rules) ->
  run_rules flag_config context = evaluate_rules rules context.
Proof.
  intros H. unfold run_rules, get_or. now rewrite H.
Qed.

Lemma first_match_result (pre post : list pyval) (m : list (string * pyval))
    (context default_value : pyval) :
  dict_lookup "rules" flag_config = Some (PList (pre ++ PDict m :: post)) ->
  Forall (fun rule => rule_matches rule context = Ok false) pre ->
  rule_matches (PDict m) context = Ok true ->
  evaluate_flag fs config_path (PStr k) context default_value
  = result (get_or "value" m PNone) "TARGETING_MATCH".
Proof.
  intros Hrules Hpre Hhit. rewrite evaluate_flag_defined.
  rewrite (run_rules_list _ _ Hrules).
  now rewrite (evaluate_rules_first_match _ _ _ _ Hpre Hhit).
Qed.


(** A rule that raises after rules that do not match takes the call
    to [ERROR] with the caller's default, whatever the flag's own
    default is. *)
Lemma failing_rule_gives_error (pre post : list pyval) (rule : pyval)
    (context default_value : pyval) (e : exn) :
  dict_lookup "rules" flag_config = Some (PList (pre ++ rule :: post)) ->
  Forall (fun rule => rule_matches rule context = Ok false) pre ->
  rule_matches rule context = Raise e ->
  evaluate_flag fs config_path (PStr k) context default_value
  = result default_value "ERROR".
Proof.
  intros Hrules Hpre Hraise. rewrite evaluate_flag_defined.
  rewrite (run_rules_list _ _ Hrules). clear Hrules.
  assert (H : exists e', evaluate_rules (pre ++ rule :: post) context = Raise e').
  { induction Hpre as [| r pre Hr _ IH].
    - now apply evaluate_rules_raise with (e := e).
    - rewrite <- app_comm_cons. now rewrite evaluate_rules_skip. }
  destruct H as [e' ->]. reflexivity.
Qed.

(** A definition with neither [rules] nor [default] resolves to the
    caller's default with reason [DEFAULT]. *)
Lemma defined_flag_without_optional_fields (context default_value : pyval) :
  dict_lookup "rules" flag_config = None ->
  dict_lookup "default" flag_config = None ->
  evaluate_flag fs config_path (PStr k) context default_value
  = result default_value "DEFAULT".
Proof.
  intros Hrules Hdefault. rewrite evaluate_flag_defined.
  unfold run_rules, get_or. now rewrite Hrules, Hdefault.
Qed.

(** C6, as the code has it: rule evaluation is first-match-wins in
    document order as long as no rule before the first match raises.
    When the rules of a flag are [pre ++ rule :: post], every rule of
    [pre] evaluates to false on the context and [rule] matches,
    [evaluate_flag] returns [rule]'s value with reason
    [TARGETING_MATCH], whatever [post] holds. *)
Theorem first_match_wins (pre post : list pyval) (m : list (string * pyval))
    (v context default_value : pyval) :
  dict_lookup "rules" flag_config = Some (PList (pre ++ PDict m :: post)) ->
  Forall (fun rule => rule_matches rule context = Ok false) pre ->
  rule_matches (PDict m) context = Ok true ->
  dict_lookup "value" m = Some v ->
  evaluate_flag fs config_path (PStr k) context default_value
  = result v "TARGETING_MATCH".
Proof.
  intros Hrules Hpre Hhit Hvalue.
  rewrite (first_match_result _ _ _ _ _ Hrules Hpre Hhit).
  unfold get_or. now rewrite Hvalue.
Qed.

(** C10, as the code has it: when every rule before the earliest
    matching rule evaluates to false and that rule has no [value] key,
    [evaluate_flag] returns [None] (JSON null) with reason
    [TARGETING_MATCH]; neither default takes its place. *)
Theorem matching_rule_without_value (pre post : list pyval)
    (m : list (string * pyval)) (context default_value : pyval) :
  dict_lookup "rules" flag_config = Some (PList (pre ++ PDict m :: post)) ->
  Forall (fun rule => rule_matches rule context = Ok false) pre ->
  rule_matches (PDict m) context = Ok true ->
  dict_lookup "value" m = None ->
  evaluate_flag fs config_path (PStr k) context default_value
  = result PNone "TARGETING_MATCH".
Proof.
  intros Hrules Hpre Hhit Hvalue.
  rewrite (first_match_result _ _ _ _ _ Hrules Hpre Hhit).
  unfold get_or. now rewrite Hvalue.
Qed.

End DefinedFlag.

(** ** Strings: containment of a character and splitting *)

Lemma prefix_empty (s : string) : prefix "" s = true.
Proof. now destruct s. Qed.

Lemma prefix_app (n s : string) : prefix n (n ++ s) = true.
Proof.
  induction n as [| c n IH]; simpl; [apply prefix_empty |].
  destruct (ascii_dec c c); [exact IH | congruence].
Qed.

Lemma str_contains_prefix (n s : string) :
  prefix n s = true -> str_contains n s = true.
Proof.
  intros H. destruct s; cbn [str_contains]; now rewrite H.
Qed.

Lemma str_contains_app_l (n s : string) : str_contains n (n ++ s) = true.
Proof. apply str_contains_prefix, prefix_app. Qed.

Lemma has_char_cons (q c : ascii) (s : string) :
  str_contains (String q "") (String c s)
  = orb (Ascii.eqb c q) (str_contains (String q "") s).
Proof.
  cbn [str_contains prefix].
  destruct (ascii_dec q c) as [-> | Hne].
  - now rewrite prefix_empty, Ascii.eqb_refl.
  - destruct (Ascii.eqb_spec c q); [congruence | reflexivity].
Qed.

Lemma has_char_app (q : ascii) (a b : string) :
  str_contains (String q "") (a ++ b)
  = orb (str_contains (String q "") a) (str_contains (String q "") b).
Proof.
  induction a as [| c a IH].
  - reflexivity.
  - change (String c a ++ b)%string with (String c (a ++ b)).
    rewrite !has_char_cons, IH. now rewrite orb_assoc.
Qed.

Lemma str_split_no_sep (q : ascii) (s : string) :
  str_contains (String q "") s = false -> str_split q s = [s].
Proof.
  induction s as [| c s IH]; [reflexivity |].
  rewrite has_char_cons. intros H.
  apply orb_false_iff in H as [Hc Hs].
  cbn [str_split]. now rewrite Hc, (IH Hs).
Qed.

Lemma str_split_at_sep (q : ascii) (a b : string) :
  str_contains (String q "") a = false ->
  str_split q (a ++ String q b) = a :: str_split q b.
Proof.
  induction a as [| c a IH].
  - intros _. cbn. now rewrite Ascii.eqb_refl.
  - rewrite has_char_cons. intros H.
    apply orb_false_iff in H as [Hc Ha].
    change (String c a ++ String q b)%string with (String c (a ++ String q b)).
    cbn [str_split]. now rewrite Hc, (IH Ha).
Qed.

Lemma str_split_nonempty (q : ascii) (s : string) : str_split q s <> [].
Proof.
  destruct s as [| c s]; cbn [str_split]; [discriminate |].
  destruct (Ascii.eqb c q); [discriminate |].
  destruct (str_split q s); discriminate.
Qed.

(** The second piece of [Q<literal>Q...] after a prefix free of [Q]. *)
Lemma split_quoted (q : ascii) (pre literal post : string) :
  str_contains (String q "") pre = false ->
  str_contains (String q "") literal = false ->
  py_index (str_split q (pre ++ String q (literal ++ String q post))) 1
  = Ok literal.
Proof.
  intros Hpre Hlit.
  rewrite (str_split_at_sep _ _ _ Hpre), (str_split_at_sep _ _ _ Hlit).
  reflexivity.
Qed.

(** ** evaluate_condition *)

Lemma evaluate_condition_falsy (condition context : pyval) :
  truthy condition = false -> evaluate_condition condition context = Ok true.
Proof.
  intros H. unfold evaluate_condition. now rewrite H.
Qed.

Lemma truthy_str (s : string) : s <> "" -> truthy (PStr s) = true.
Proof.
  intros H. cbn [truthy]. destruct (String.eqb_spec s ""); [congruence | reflexivity].
Qed.

Lemma evaluate_condition_other (s : string) (context : pyval) :
  s <> "" -> str_contains "user.role ==" s = false ->
  evaluate_condition (PStr s) context = Ok false.
Proof.
  intros Hs Hc. unfold evaluate_condition.
  rewrite (truthy_str _ Hs). cbn [negb py_in bind]. now rewrite Hc.
Qed.

Lemma recognised_nonempty (s : string) :
  str_contains "user.role ==" s = true -> s <> "".
Proof.
  intros H ->. discriminate H.
Qed.

(** The two lookups [context.get('user', {}).get('role')]. *)
Lemma user_role_lookup (context : list (string * pyval)) :
  user_is_mapping context = true ->
  (user <- py_get (PDict context) (PStr "user") (PDict []) ;;
   py_get user (PStr "role") PNone) = Ok (role_of context).
Proof.
  unfold user_is_mapping, role_of. rewrite py_get_dict. unfold get_or at 1.
  destruct (dict_lookup "user" context) as [[] |]; try discriminate;
    intros _; cbn [bind]; now rewrite py_get_dict.
Qed.

Lemma user_role_lookup_raises (context : list (string * pyval)) :
  user_is_mapping context = false ->
  (user <- py_get (PDict context) (PStr "user") (PDict []) ;;
   py_get user (PStr "role") PNone) = Raise AttributeError.
Proof.
  unfold user_is_mapping. rewrite py_get_dict. unfold get_or.
  destruct (dict_lookup "user" context) as [[] |]; try discriminate;
    reflexivity.
Qed.

Lemma evaluate_condition_recognised (s : string) (context : list (string * pyval)) :
  str_contains "user.role ==" s = true ->
  user_is_mapping context = true ->
  evaluate_condition (PStr s) (PDict context)
  = (expected_role <-
       py_index (str_split (if str_contains (String dquote "") s
                            then dquote else squote) s) 1 ;;
     Ok (py_eq_str (role_of context) expected_role)).
Proof.
  intros Hc Hu. unfold evaluate_condition.
  rewrite (truthy_str _ (recognised_nonempty _ Hc)).
  cbn [negb py_in bind py_split]. rewrite Hc.
  destruct (py_index _ 1) as [expected_role | e]; cbn [bind]; [| reflexivity].
  pose proof (user_role_lookup _ Hu) as Hl.
  destruct (py_get (PDict context) (PStr "user") (PDict [])) as [user | e];
    cbn [bind] in Hl |- *; [| discriminate].
  now rewrite Hl.
Qed.

Lemma equality_condition_recognised (q : ascii) (literal : string) :
  str_contains "user.role ==" (equality_condition "user.role" q literal) = true.
Proof.
  change (equality_condition "user.role" q literal)
    with ("user.role ==" ++ String " " (String q (literal ++ String q "")))%string.
  apply str_contains_app_l.
Qed.

Lemma equality_condition_nonempty (path : string) (q : ascii) (literal : string) :
  equality_condition path q literal <> "".
Proof.
  unfold equality_condition. destruct path; discriminate.
Qed.

Lemma equality_condition_literal (q : ascii) (literal : string) :
  quotes_literal q literal ->
  py_index
    (str_split
       (if str_contains (String dquote "")
             (equality_condition "user.role" q literal)
        then dquote else squote)
       (equality_condition "user.role" q literal)) 1
  = Ok literal.
Proof.
  intros [Hq Hd].
  change (equality_condition "user.role" q literal)
    with ("user.role == " ++ String q (literal ++ String q ""))%string.
  assert (Hsel : (if str_contains (String dquote "")
                       ("user.role == " ++ String q (literal ++ String q ""))
                  then dquote else squote) = q).
  { assert (Hpre : str_contains (String dquote "") "user.role == " = false)
      by reflexivity.
    destruct Hd as [-> | [-> Hd]].
    - now rewrite has_char_app, Hpre, has_char_cons, Ascii.eqb_refl.
    - now rewrite has_char_app, Hpre, has_char_cons, has_char_app, Hd. }
  rewrite Hsel. apply split_quoted; [| exact Hq].
  destruct Hd as [-> | [-> _]]; reflexivity.
Qed.

Lemma evaluate_equality_condition (q : ascii) (literal : string)
    (context : list (string * pyval)) :
  quotes_literal q literal ->
  user_is_mapping context = true ->
  evaluate_condition (PStr (equality_condition "user.role" q literal))
    (PDict context)
  = Ok (py_eq_str (role_of context) literal).
Proof.
  intros Hq Hu.
  rewrite (evaluate_condition_recognised _ _
             (equality_condition_recognised q literal) Hu).
  now rewrite (equality_condition_literal _ _ Hq).
Qed.

Lemma py_eq_str_true (v : pyval) (s : string) :
  py_eq_str v s = true <-> v = PStr s.
Proof.
  destruct v; cbn [py_eq_str]; split; try discriminate.
  - intros H. apply String.eqb_eq in H. now subst.
  - intros H. inversion H. apply String.eqb_refl.
Qed.

Lemma resolve_user_role (context : list (string * pyval)) (s : string) :
  resolve_path ["user"; "role"] (PDict context) = Some (PStr s)
  <-> role_of context = PStr s.
Proof.
  unfold role_of, get_or. cbn [resolve_path].
  destruct (dict_lookup "user" context) as [[] |];
    try (split; discriminate).
  destruct (dict_lookup "role" m); split; intros H;
    try discriminate; now inversion H.
Qed.

(** ** The error boundary of evaluate_flag *)

Lemma evaluate_flag_well_formed (fs : file_system) (config_path : string)
    (flag_key context default_value : pyval) :
  exists v reason,
    evaluate_flag fs config_path flag_key context default_value
    = result v reason /\ In reason reason_codes.
Proof.
  unfold evaluate_flag, evaluate_flag_try, reason_codes.
  destruct (load_config fs config_path) as [config_data | e]; cbn [bind];
    [| eexists _, _; split; [reflexivity | simpl; tauto]].
  unfold evaluate_document.
  destruct (py_get config_data _ _) as [features | e]; cbn [bind];
    [| eexists _, _; split; [reflexivity | simpl; tauto]].
  destruct (py_get features _ _) as [flag_config | e]; cbn [bind];
    [| eexists _, _; split; [reflexivity | simpl; tauto]].
  destruct (negb (truthy flag_config));
    [eexists _, _; split; [reflexivity | simpl; tauto] |].
  destruct (py_get flag_config (PStr "default") _) as [flag_default | e];
    cbn [bind]; [| eexists _, _; split; [reflexivity | simpl; tauto]].
  destruct (py_get flag_config (PStr "rules") _) as [rules | e]; cbn [bind];
    [| eexists _, _; split; [reflexivity | simpl; tauto]].
  destruct (py_iter rules) as [items | e]; cbn [bind];
    [| eexists _, _; split; [reflexivity | simpl; tauto]].
  destruct (evaluate_rules items context) as [[v |] | e]; cbn [bind];
    eexists _, _; (split; [reflexivity | simpl; tauto]).
Qed.

(** A rule that is not a mapping makes the loop raise. *)
Lemma malformed_rule_raises (rule : pyval) (rest : list pyval) (context : pyval) :
  (forall m, rule <> PDict m) ->
  evaluate_rules (rule :: rest) context = Raise AttributeError.
Proof.
  intros H. destruct rule; try reflexivity. now destruct (H m).
Qed.

(** A [user] entry that is not a mapping makes a recognised condition
    raise. *)
Lemma user_not_mapping_raises (q : ascii) (literal : string)
    (context : list (string * pyval)) :
  quotes_literal q literal ->
  user_is_mapping context = false ->
  evaluate_condition (PStr (equality_condition "user.role" q literal))
    (PDict context)
  = Raise AttributeError.
Proof.
  intros Hq Hu. unfold evaluate_condition.
  rewrite (truthy_str _ (equality_condition_nonempty _ _ _)).
  cbn [negb py_in bind py_split].
  rewrite equality_condition_recognised, (equality_condition_literal _ _ Hq).
  cbn [bind]. pose proof (user_role_lookup_raises _ Hu) as Hl.
  destruct (py_get (PDict context) (PStr "user") (PDict [])) as [user | e];
    cbn [bind] in Hl |- *; [now rewrite Hl | congruence].
Qed.

(** A recognised condition without any quote character raises. *)
Lemma unquoted_condition_raises (s : string) (context : pyval) :
  str_contains "user.role ==" s = true ->
  str_contains (String dquote "") s = false ->
  str_contains (String squote "") s = false ->
  evaluate_condition (PStr s) context = Raise IndexError.
Proof.
  intros Hc Hd Hs. unfold evaluate_condition.
  rewrite (truthy_str _ (recognised_nonempty _ Hc)).
  cbn [negb py_in bind py_split]. rewrite Hc, Hd.
  now rewrite (str_split_no_sep _ _ Hs).
Qed.

(** C1: [evaluate_flag] never propagates an exception.  Whenever the
    body of its [try] block raises, on loading the document, looking
    the flag up, iterating the rules or matching a condition, the call
    returns [{value: default_value, reason: ERROR}] with the caller's
    default. *)
Theorem evaluate_flag_absorbs_failures (fs : file_system) (config_path : string)
    (flag_key context default_value : pyval) (e : exn) :
  evaluate_flag_try fs config_path flag_key context default_value = Raise e ->
  evaluate_flag fs config_path flag_key context default_value
  = result default_value "ERROR".
Proof.
  intros H. unfold evaluate_flag. now rewrite H.
Qed.

Lemma evaluate_flag_absorbs_failures_witness :
  evaluate_flag_try sample_fs sample_path (PStr "unquoted") (PDict [])
    (PBool false) = Raise IndexError /\
  evaluate_flag sample_fs sample_path (PStr "unquoted") (PDict []) (PBool false)
  = result (PBool false) "ERROR".
Proof.
  split; [reflexivity |].
  apply (evaluate_flag_absorbs_failures sample_fs sample_path (PStr "unquoted")
           (PDict []) (PBool false) IndexError).
  reflexivity.
Defined.

(** ** Missing flags and missing conditions *)

(** C7: a flag key that is not a key of the document's [features]
    mapping gives [{value: default_value, reason: FLAG_NOT_FOUND}] with
    the caller's default unchanged; and a rule without a [condition]
    key matches every context, the empty one included. *)
Theorem absent_flag_and_absent_condition (fs : file_system)
    (config_path : string) (config_data features rule : list (string * pyval))
    (k : string) (context default_value : pyval) :
  fs config_path = Document (PDict config_data) ->
  features_of config_data = Some features ->
  dict_lookup k features = None ->
  dict_lookup "condition" rule = None ->
  evaluate_flag fs config_path (PStr k) context default_value
  = result default_value "FLAG_NOT_FOUND" /\
  (forall any_context : pyval, rule_matches (PDict rule) any_context = Ok true) /\
  rule_matches (PDict rule) (PDict []) = Ok true.
Proof.
  intros Hdoc Hfeat Hk Hcond.
  assert (Hrule : forall c, rule_matches (PDict rule) c = Ok true).
  { intros c. unfold rule_matches. rewrite py_get_dict. unfold get_or.
    now rewrite Hcond. }
  repeat split; try apply Hrule.
  apply (evaluate_flag_falsy_definition _ _ _ _ _ _ _ Hdoc Hfeat).
  unfold get_or. now rewrite Hk.
Qed.

Lemma absent_flag_and_absent_condition_witness :
  evaluate_flag sample_fs sample_path (PStr "gamma") (PDict []) (PInt 7)
  = result (PInt 7) "FLAG_NOT_FOUND" /\
  rule_matches (PDict [("value", PInt 1)]) (PDict []) = Ok true.
Proof.
  pose proof (absent_flag_and_absent_condition sample_fs sample_path
                sample_config sample_features [("value", PInt 1)] "gamma"
                (PDict []) (PInt 7) eq_refl eq_refl eq_refl eq_refl)
    as (Hflag & _ & Hrule).
  split; assumption.
Defined.

Lemma first_match_wins_witness :
  evaluate_flag sample_fs sample_path (PStr "tiered") (user_with_role "guest")
    PNone
  = result (PInt 20) "TARGETING_MATCH".
Proof.
  refine (first_match_wins sample_fs sample_path sample_config sample_features
            [("default", PInt 0);
             ("rules",
               PList [rule_of admin_condition (PInt 10);
                      PDict [("value", PInt 20)];
                      PDict [("value", PInt 30)]])]
            "tiered" eq_refl eq_refl eq_refl _
            [rule_of admin_condition (PInt 10)] [PDict [("value", PInt 30)]]
            [("value", PInt 20)] (PInt 20) (user_with_role "guest") PNone
            eq_refl _ eq_refl eq_refl).
  - discriminate.
  - constructor; [reflexivity | constructor].
Defined.

(** The two-rule case of the specification: both rules match, the
    first one's value is returned. *)
Example first_of_two_matching_rules :
  evaluate_flag sample_fs sample_path (PStr "ordered") (PDict []) PNone
  = result (PInt 1) "TARGETING_MATCH".
Proof. reflexivity. Qed.

Lemma matching_rule_without_value_witness :
  evaluate_flag sample_fs sample_path (PStr "bare") (user_with_role "admin")
    (PInt 9)
  = result PNone "TARGETING_MATCH".
Proof.
  refine (matching_rule_without_value sample_fs sample_path sample_config
            sample_features
            [("default", PInt 5);
             ("rules", PList [PDict [("condition", PStr admin_condition)]])]
            "bare" eq_refl eq_refl eq_refl _
            [] [] [("condition", PStr admin_condition)]
            (user_with_role "admin") (PInt 9)
            eq_refl _ eq_refl eq_refl).
  - discriminate.
  - constructor.
Defined.

(** ** Flag definitions without optional fields *)

(** C5, at the empty definition: the flag [empty] of the sample
    document is defined as [{}], and [evaluate_flag] reports it with
    reason [FLAG_NOT_FOUND], where a definition lacking only [rules]
    and [default] gets reason [DEFAULT]
    ([defined_flag_without_optional_fields]). *)
Theorem empty_flag_definition_reported_missing (context default_value : pyval) :
  dict_lookup "empty" sample_features = Some (PDict []) /\
  evaluate_flag sample_fs sample_path (PStr "empty") context default_value
  = result default_value "FLAG_NOT_FOUND".
Proof.
  split; reflexivity.
Qed.

(** A definition holding only an unrelated key resolves to [DEFAULT]. *)
Example sparse_flag_definition (context default_value : pyval) :
  evaluate_flag
    (fun _ => Document
       (PDict [("features", PDict [("f", PDict [("note", PStr "x")])])]))
    sample_path (PStr "f") context default_value
  = result default_value "DEFAULT".
Proof. reflexivity. Qed.

(** ** Conditions *)

(** C3, as the code has it: the only recognised path is [user.role].
    For a condition [user.role == Q<literal>Q] whose literal holds no
    quote character [Q] and, when [Q] is the single quote, no double
    quote, and a context whose [user] entry, when present, is a
    mapping, the matcher returns true exactly when the value at [user]
    then [role] is the string [literal]; an equality condition on any
    path whose text does not contain [user.role ==] never matches. *)
Theorem only_user_role_is_resolved (q : ascii) (literal : string)
    (context : list (string * pyval))
    (path : string) (other_q : ascii) (other_literal : string)
    (other_context : pyval) :
  quotes_literal q literal ->
  user_is_mapping context = true ->
  str_contains "user.role ==" (equality_condition path other_q other_literal)
  = false ->
  (exists b : bool,
     evaluate_condition (PStr (equality_condition "user.role" q literal))
       (PDict context) = Ok b /\
     (b = true <->
      resolve_path ["user"; "role"] (PDict context) = Some (PStr literal))) /\
  evaluate_condition (PStr (equality_condition path other_q other_literal))
    other_context
  = Ok false.
Proof.
  intros Hq Hu Hother. split.
  - exists (py_eq_str (role_of context) literal). split.
    + now apply evaluate_equality_condition.
    + rewrite py_eq_str_true. symmetry. apply resolve_user_role.
  - apply evaluate_condition_other;
      [apply equality_condition_nonempty | exact Hother].
Qed.

Lemma only_user_role_is_resolved_witness :
  evaluate_condition (PStr admin_condition) (user_with_role "admin") = Ok true /\
  evaluate_condition (PStr (equality_condition "tenant.plan" dquote "pro"))
    tenant_context = Ok false.
Proof.
  destruct (only_user_role_is_resolved dquote "admin"
              [("user", PDict [("role", PStr "admin")])]
              "tenant.plan" dquote "pro" tenant_context)
    as [(b & Hb & Hiff) Hother].
  - split; [reflexivity | left; reflexivity].
  - reflexivity.
  - reflexivity.
  - split; [| exact Hother].
    pose proof (proj2 Hiff eq_refl) as Hbt.
    rewrite Hbt in Hb. exact Hb.
Defined.

(** The context holds the literal at the condition's path, and the
    condition does not match. *)
Lemma tenant_plan_condition_not_matched :
  resolve_path ["tenant"; "plan"] tenant_context = Some (PStr "pro") /\
  evaluate_condition (PStr (equality_condition "tenant.plan" dquote "pro"))
    tenant_context = Ok false.
Proof.
  split; reflexivity.
Qed.

(** C4, as the code has it: a non-empty condition string that does not
    contain [user.role ==] does not match and raises nothing, whatever
    the context is; the empty string is taken for an absent condition
    and matches. *)
Theorem unrecognised_condition_does_not_match (condition : string)
    (context : pyval) :
  condition <> "" ->
  str_contains "user.role ==" condition = false ->
  evaluate_condition (PStr condition) context = Ok false /\
  evaluate_condition (PStr "") context = Ok true.
Proof.
  intros Hne Hc. split.
  - now apply evaluate_condition_other.
  - reflexivity.
Qed.

Lemma unrecognised_condition_does_not_match_witness :
  evaluate_condition (PStr "country in [DE, FR]") (user_with_role "admin")
  = Ok false.
Proof.
  refine (proj1 (unrecognised_condition_does_not_match "country in [DE, FR]"
                   (user_with_role "admin") _ eq_refl)).
  discriminate.
Defined.

Lemma empty_condition_matches :
  evaluate_condition (PStr "") (PDict []) = Ok true.
Proof. reflexivity. Qed.

(** The unquoted literal of the specification's example raises. *)
Example unquoted_literal_raises (context : pyval) :
  evaluate_condition (PStr "user.role == admin") context = Raise IndexError.
Proof. now apply unquoted_condition_raises. Qed.

(** C9: the matcher reads the context only through the value at
    [user] then [role].  Two contexts whose [user] entries, when
    present, are mappings and which hold the same value there get the
    same answer for every condition. *)
Theorem condition_reads_only_user_role (condition : pyval)
    (context1 context2 : list (string * pyval)) :
  user_is_mapping context1 = true ->
  user_is_mapping context2 = true ->
  role_of context1 = role_of context2 ->
  evaluate_condition condition (PDict context1)
  = evaluate_condition condition (PDict context2).
Proof.
  intros H1 H2 Hrole. unfold evaluate_condition.
  destruct (negb (truthy condition)); [reflexivity |].
  destruct (py_in "user.role ==" condition) as [[] | e]; cbn [bind];
    try reflexivity.
  destruct (py_in (String dquote "") condition) as [double | e]; cbn [bind];
    [| reflexivity].
  destruct (py_split condition _) as [parts | e]; cbn [bind]; [| reflexivity].
  destruct (py_index parts 1) as [expected_role | e]; cbn [bind];
    [| reflexivity].
  pose proof (user_role_lookup _ H1) as L1.
  pose proof (user_role_lookup _ H2) as L2.
  destruct (py_get (PDict context1) (PStr "user") (PDict [])) as [u1 | e1];
    cbn [bind] in L1 |- *; [| discriminate].
  destruct (py_get (PDict context2) (PStr "user") (PDict [])) as [u2 | e2];
    cbn [bind] in L2 |- *; [| discriminate].
  now rewrite L1, L2, Hrole.
Qed.

Lemma condition_reads_only_user_role_witness :
  evaluate_condition (PStr admin_condition)
    (PDict [("user", PDict [("role", PStr "admin"); ("name", PStr "ann")]);
            ("tenant", PDict [("plan", PStr "pro")])])
  = evaluate_condition (PStr admin_condition)
      (PDict [("region", PStr "eu");
              ("user", PDict [("id", PInt 7); ("role", PStr "admin")])]).
Proof.
  apply (condition_reads_only_user_role (PStr admin_condition)
           [("user", PDict [("role", PStr "admin"); ("name", PStr "ann")]);
            ("tenant", PDict [("plan", PStr "pro")])]
           [("region", PStr "eu");
            ("user", PDict [("id", PInt 7); ("role", PStr "admin")])]);
    reflexivity.
Defined.

(** ** Contexts without the role path *)





(** A context whose [user] entry is not a mapping takes the same flag
    to [ERROR]. *)
Example user_not_a_mapping_gives_error :
  evaluate_flag sample_fs sample_path (PStr "beta")
    (PDict [("user", PStr "ann")]) (PInt 3)
  = result (PInt 3) "ERROR".
Proof. reflexivity. Qed.

(** ** Missing and malformed configuration documents *)

Section Requests.

Variable AGENT_PATH : option string.
Variable fs : file_system.
Variable exn_str : exn -> string.

(** A request carrying the four required parameters, the last three
    as non-empty strings. *)
Variable request : list (string * pyval).
Variables application environment profile : string.
Hypothesis Hflag_key : truthy (get_or "flagKey" request PNone) = true.
Hypothesis Happlication :
  dict_lookup "application" request = Some (PStr application).
Hypothesis Henvironment :
  dict_lookup "environment" request = Some (PStr environment).
Hypothesis Hprofile :
  dict_lookup "configurationProfile" request = Some (PStr profile).
Hypothesis Happlication_set : application <> "".
Hypothesis Henvironment_set : environment <> "".
Hypothesis Hprofile_set : profile <> "".

Variable config_path : string.
Hypothesis Hpath :
  get_config_path AGENT_PATH (PStr application) (PStr environment)
    (PStr profile) = Ok config_path.

Lemma handle_evaluate_resolved :
  handle_evaluate AGENT_PATH fs exn_str (Ok (PDict request))
  = if path_exists fs config_path
    then Response 200
           (evaluate_flag fs config_path (get_or "flagKey" request PNone)
              (get_or "context" request (PDict []))
              (get_or "defaultValue" request PNone))
    else send_error_response 404 ("Configuration not found: " ++ config_path).
Proof.
  unfold handle_evaluate, handle_evaluate_try. cbn [bind].
  rewrite !py_get_dict. cbn [bind].
  assert (Ha : get_or "application" request PNone = PStr application)
    by (unfold get_or; now rewrite Happlication).
  assert (He : get_or "environment" request PNone = PStr environment)
    by (unfold get_or; now rewrite Henvironment).
  assert (Hp : get_or "configurationProfile" request PNone = PStr profile)
    by (unfold get_or; now rewrite Hprofile).
  rewrite Ha, He, Hp. cbn [forallb]. rewrite Hflag_key.
  rewrite (truthy_str _ Happlication_set), (truthy_str _ Henvironment_set),
    (truthy_str _ Hprofile_set).
  cbn [andb negb]. rewrite Hpath. cbn [bind].
  now destruct (path_exists fs config_path).
Qed.

(** C2, as the code has it: a request whose configuration document
    does not exist is answered 404 with a [Configuration not found]
    error, which is no evaluation result; a request whose document
    exists but is malformed is answered 200 with the evaluation result
    [{value: defaultValue, reason: ERROR}].  The two answers differ. *)
Theorem missing_and_malformed_documents :
  (fs config_path = NoSuchFile ->
   handle_evaluate AGENT_PATH fs exn_str (Ok (PDict request))
   = send_error_response 404 ("Configuration not found: " ++ config_path)) /\
  (fs config_path = Malformed ->
   handle_evaluate AGENT_PATH fs exn_str (Ok (PDict request))
   = Response 200 (result (get_or "defaultValue" request PNone) "ERROR")) /\
  (forall v reason,
     send_error_response 404 ("Configuration not found: " ++ config_path)
     <> Response 200 (result v reason)).
Proof.
  rewrite handle_evaluate_resolved. unfold path_exists.
  repeat split.
  - now intros ->.
  - intros H. rewrite H. f_equal.
    apply evaluate_flag_not_loaded. intros d. rewrite H. discriminate.
  - discriminate.
Qed.

End Requests.

Lemma missing_and_malformed_documents_witness :
  handle_evaluate None sample_fs no_message
    (Ok (PDict
           [("flagKey", PStr "beta"); ("application", PStr "shop");
            ("environment", PStr "test");
            ("configurationProfile", PStr "main")]))
  = send_error_response 404
      "Configuration not found: /opt/appconfig-agent/configs/shop/test/main/config.json"
  /\
  handle_evaluate None broken_fs no_message
    (Ok (sample_request "beta" (PDict [])))
  = Response 200 (result (PBool false) "ERROR").
Proof.
  split.
  - refine (proj1 (missing_and_malformed_documents None sample_fs no_message
                     [("flagKey", PStr "beta"); ("application", PStr "shop");
                      ("environment", PStr "test");
                      ("configurationProfile", PStr "main")]
                     "shop" "test" "main"
                     eq_refl eq_refl eq_refl eq_refl _ _ _
                     "/opt/appconfig-agent/configs/shop/test/main/config.json"
                     eq_refl) eq_refl); discriminate.
  - refine (proj1 (proj2 (missing_and_malformed_documents None broken_fs
                     no_message
                     [("flagKey", PStr "beta"); ("application", PStr "shop");
                      ("environment", PStr "prod");
                      ("configurationProfile", PStr "main");
                      ("context", PDict []); ("defaultValue", PBool false)]
                     "shop" "prod" "main"
                     eq_refl eq_refl eq_refl eq_refl _ _ _
                     sample_path eq_refl)) eq_refl); discriminate.
Defined.

(** A malformed document is answered with an evaluation result whose
    reason is [ERROR]. *)
Lemma malformed_document_gives_error_result :
  broken_fs sample_path = Malformed /\
  handle_evaluate None broken_fs no_message
    (Ok (sample_request "beta" (PDict [])))
  = Response 200 (result (PBool false) "ERROR").
Proof.
  split; reflexivity.
Qed.

(** ** The scenarios of the specification *)

Example scenario_admin :
  handle_evaluate None sample_fs no_message
    (Ok (sample_request "beta" (user_with_role "admin")))
  = Response 200 (result (PBool true) "TARGETING_MATCH").
Proof. reflexivity. Qed.

Example scenario_guest :
  handle_evaluate None sample_fs no_message
    (Ok (sample_request "beta" (user_with_role "guest")))
  = Response 200 (result (PBool false) "DEFAULT").
Proof. reflexivity. Qed.

Example scenario_case_sensitive :
  evaluate_condition (PStr admin_condition) (user_with_role "Admin") = Ok false.
Proof. reflexivity. Qed.

Example scenario_missing_flag :
  handle_evaluate None sample_fs no_message
    (Ok (sample_request "gamma" (PDict [])))
  = Response 200 (result (PBool false) "FLAG_NOT_FOUND").
Proof. reflexivity. Qed.

Example scenario_missing_parameter :
  handle_evaluate None sample_fs no_message
    (Ok (PDict [("flagKey", PStr "beta"); ("application", PStr "shop")]))
  = send_error_response 400 "Missing required parameters".
Proof. reflexivity. Qed.

Example scenario_invalid_body :
  handle_evaluate None sample_fs no_message (Raise JSONDecodeError)
  = send_error_response 400 "Invalid JSON in request body".
Proof. reflexivity. Qed.

(** * Further properties *)

(** ** Request validation in handle_evaluate *)

Lemma handle_evaluate_try_dict (AGENT_PATH : option string) (fs : file_system)
    (request : list (string * pyval)) :
  handle_evaluate_try AGENT_PATH fs (Ok (PDict request))
  = if negb (forallb truthy (required_values request))
    then Ok (send_error_response 400 "Missing required parameters")
    else
      config_path <-
        get_config_path AGENT_PATH (get_or "application" request PNone)
          (get_or "environment" request PNone)
          (get_or "configurationProfile" request PNone) ;;
      if negb (path_exists fs config_path)
      then Ok (send_error_response 404
                 ("Configuration not found: " ++ config_path))
      else
        Ok (Response 200
              (evaluate_flag fs config_path (get_or "flagKey" request PNone)
                 (get_or "context" request (PDict []))
                 (get_or "defaultValue" request PNone))).
Proof.
  unfold handle_evaluate_try. cbn [bind]. rewrite !py_get_dict. reflexivity.
Qed.

Lemma forallb_falsy (l : list pyval) (v : pyval) :
  In v l -> truthy v = false -> forallb truthy l = false.
Proof.
  intros Hin Hv. induction l as [| x l IH]; [destruct Hin |].
  cbn [forallb]. destruct Hin as [-> | Hin].
  - now rewrite Hv.
  - rewrite (IH Hin). apply andb_false_r.
Qed.

(** A request object in which one of [flagKey], [application],
    [environment] and [configurationProfile] is absent or falsy (null,
    false, 0, the empty string, list or object) is answered 400
    [Missing required parameters], whatever the files on disk are. *)
Theorem missing_parameter_rejected (AGENT_PATH : option string)
    (fs : file_system) (exn_str : exn -> string)
    (request : list (string * pyval)) (k : string) :
  In k required_keys ->
  truthy (get_or k request PNone) = false ->
  handle_evaluate AGENT_PATH fs exn_str (Ok (PDict request))
  = send_error_response 400 "Missing required parameters".
Proof.
  intros Hk Hfalsy. unfold handle_evaluate.
  rewrite handle_evaluate_try_dict.
  rewrite (forallb_falsy (required_values request) (get_or k request PNone));
    [reflexivity | | exact Hfalsy].
  unfold required_values.
  exact (in_map (fun key => get_or key request PNone) required_keys k Hk).
Qed.

Lemma missing_parameter_rejected_witness :
  handle_evaluate None sample_fs no_message
    (Ok (PDict [("flagKey", PStr "beta"); ("application", PStr "shop");
                ("environment", PStr ""); ("configurationProfile", PStr "main")]))
  = send_error_response 400 "Missing required parameters".
Proof.
  apply (missing_parameter_rejected None sample_fs no_message
           [("flagKey", PStr "beta"); ("application", PStr "shop");
            ("environment", PStr ""); ("configurationProfile", PStr "main")]
           "environment").
  - right; right; left; reflexivity.
  - reflexivity.
Defined.

(** A request body that parses to anything but an object (a list, a
    string, a number, [true], [null]) is answered 500: the first
    [request_data.get] raises [AttributeError]. *)
Theorem non_object_request_is_internal_error (AGENT_PATH : option string)
    (fs : file_system) (exn_str : exn -> string) (request_data : pyval) :
  (forall m, request_data <> PDict m) ->
  handle_evaluate AGENT_PATH fs exn_str (Ok request_data)
  = send_error_response 500
      ("Internal server error: " ++ exn_str AttributeError).
Proof.
  intros H. destruct request_data; try reflexivity. now destruct (H m).
Qed.

Lemma non_object_request_is_internal_error_witness :
  handle_evaluate None sample_fs (fun _ => "no attribute")
    (Ok (PList [PStr "beta"]))
  = send_error_response 500 "Internal server error: no attribute".
Proof.
  apply (non_object_request_is_internal_error None sample_fs
           (fun _ => "no attribute") (PList [PStr "beta"])).
  discriminate.
Defined.

(** ** get_config_path *)

Lemma get_config_path_str (AGENT_PATH : option string)
    (application environment profile : string) :
  get_config_path AGENT_PATH (PStr application) (PStr environment)
    (PStr profile)
  = Ok (path_join (agent_path_of AGENT_PATH)
          ["configs"; application; environment; profile; "config.json"]).
Proof. reflexivity. Qed.

Lemma get_config_path_cases (AGENT_PATH : option string)
    (application environment profile : pyval) :
  if is_str application && is_str environment && is_str profile
  then exists path,
         get_config_path AGENT_PATH application environment profile = Ok path
  else get_config_path AGENT_PATH application environment profile
       = Raise TypeError.
Proof.
  destruct application; try reflexivity;
    destruct environment; try reflexivity;
    destruct profile; try reflexivity.
  cbn [is_str andb]. eexists. reflexivity.
Qed.

(** [get_config_path] returns a path exactly when the three components
    are strings; with any other component it raises [TypeError]. *)
Theorem get_config_path_needs_strings (AGENT_PATH : option string)
    (application environment profile : pyval) :
  ((exists path,
      get_config_path AGENT_PATH application environment profile = Ok path)
   <-> is_str application && is_str environment && is_str profile = true) /\
  (is_str application && is_str environment && is_str profile = false ->
   get_config_path AGENT_PATH application environment profile
   = Raise TypeError).
Proof.
  pose proof (get_config_path_cases AGENT_PATH application environment
                profile) as H.
  destruct (is_str application && is_str environment && is_str profile).
  - split; [split |]; [reflexivity | intros _; exact H | discriminate].
  - split; [split |]; [| discriminate | intros _; exact H].
    intros [path Hpath]. rewrite H in Hpath. discriminate Hpath.
Qed.

(** A request whose required parameters are all truthy but whose
    [application], [environment] or [configurationProfile] is not a
    string (a number, [true], a list, an object) is answered 500 with
    the [TypeError] of [os.path.join]; no file is looked at. *)
Theorem non_string_component_is_internal_error (AGENT_PATH : option string)
    (fs : file_system) (exn_str : exn -> string)
    (request : list (string * pyval)) (k : string) :
  forallb truthy (required_values request) = true ->
  In k path_keys ->
  is_str (get_or k request PNone) = false ->
  handle_evaluate AGENT_PATH fs exn_str (Ok (PDict request))
  = send_error_response 500 ("Internal server error: " ++ exn_str TypeError).
Proof.
  intros Hall Hk Hstr. unfold handle_evaluate.
  rewrite handle_evaluate_try_dict, Hall. cbn [negb].
  pose proof (get_config_path_cases AGENT_PATH
                (get_or "application" request PNone)
                (get_or "environment" request PNone)
                (get_or "configurationProfile" request PNone)) as Hpath.
  assert (Hnot : is_str (get_or "application" request PNone)
                 && is_str (get_or "environment" request PNone)
                 && is_str (get_or "configurationProfile" request PNone)
                 = false).
  { destruct Hk as [<- | [<- | [<- | []]]]; rewrite Hstr.
    - reflexivity.
    - now rewrite andb_false_r.
    - now rewrite andb_false_r. }
  rewrite Hnot in Hpath. now rewrite Hpath.
Qed.

Lemma non_string_component_is_internal_error_witness :
  handle_evaluate None sample_fs (fun _ => "expected str")
    (Ok (PDict [("flagKey", PStr "beta"); ("application", PInt 7);
                ("environment", PStr "prod");
                ("configurationProfile", PStr "main")]))
  = send_error_response 500 "Internal server error: expected str".
Proof.
  apply (non_string_component_is_internal_error None sample_fs
           (fun _ => "expected str")
           [("flagKey", PStr "beta"); ("application", PInt 7);
            ("environment", PStr "prod"); ("configurationProfile", PStr "main")]
           "application").
  - reflexivity.
  - left; reflexivity.
  - reflexivity.
Defined.

(** ** The answers of handle_evaluate and do_POST *)

Lemma handle_evaluate_try_ok (AGENT_PATH : option string) (fs : file_system)
    (request : exc pyval) (r : response) :
  handle_evaluate_try AGENT_PATH fs request = Ok r ->
  exists m,
    request = Ok (PDict m) /\
    ((forallb truthy (required_values m) = false /\
      r = send_error_response 400 "Missing required parameters") \/
     (forallb truthy (required_values m) = true /\
      exists config_path,
        get_config_path AGENT_PATH (get_or "application" m PNone)
          (get_or "environment" m PNone)
          (get_or "configurationProfile" m PNone) = Ok config_path /\
        ((path_exists fs config_path = false /\
          r = send_error_response 404
                ("Configuration not found: " ++ config_path)) \/
         (path_exists fs config_path = true /\
          r = Response 200
                (evaluate_flag fs config_path (get_or "flagKey" m PNone)
                   (get_or "context" m (PDict []))
                   (get_or "defaultValue" m PNone)))))).
Proof.
  destruct request as [d | e]; [| discriminate].
  destruct d; try discriminate.
  rewrite handle_evaluate_try_dict. intros H. exists m. split; [reflexivity |].
  destruct (forallb truthy (required_values m)); cbn [negb] in H.
  - right. split; [reflexivity |].
    destruct (get_config_path _ _ _ _) as [config_path | e]; [| discriminate].
    cbn [bind] in H. exists config_path. split; [reflexivity |].
    destruct (path_exists fs config_path); cbn [negb] in H;
      inversion H; [right | left]; now split.
  - left. inversion H. now split.
Qed.

(** Every answer of [handle_evaluate] is either status 200 with a body
    [{value, reason}] whose reason is one of the four codes, or status
    400, 404 or 500 with a body [{error: message}]. *)
Theorem handle_evaluate_answer_shape (AGENT_PATH : option string)
    (fs : file_system) (exn_str : exn -> string) (request : exc pyval) :
  match handle_evaluate AGENT_PATH fs exn_str request with
  | Response status body =>
      (status = 200%Z /\
       exists v reason, body = result v reason /\ In reason reason_codes) \/
      (In status [400%Z; 404%Z; 500%Z] /\
       exists message, body = error_body message)
  end.
Proof.
  unfold handle_evaluate.
  destruct (handle_evaluate_try AGENT_PATH fs request) as [r | e] eqn:E.
  - apply handle_evaluate_try_ok in E
      as (m & _ & [[_ ->] | (_ & cp & _ & [[_ ->] | [_ ->]])]).
    + right. split; [now left | now eexists].
    + right. split; [right; now left | now eexists].
    + left. split; [reflexivity | apply evaluate_flag_well_formed].
  - destruct e; right;
      (split; [cbn; tauto | now eexists]).
Qed.

(** [do_POST] answers 200 only on the path [/evaluate], for a request
    object whose four required parameters are truthy and whose
    configuration file exists; the body is then what [evaluate_flag]
    returns for the request's flag key, context and default. *)
Theorem evaluation_needs_resolved_request (AGENT_PATH : option string)
    (fs : file_system) (exn_str : exn -> string) (path : string)
    (request : exc pyval) :
  reply_status (do_POST AGENT_PATH fs exn_str path request) = 200%Z ->
  path = "/evaluate" /\
  exists m config_path,
    request = Ok (PDict m) /\
    forallb truthy (required_values m) = true /\
    get_config_path AGENT_PATH (get_or "application" m PNone)
      (get_or "environment" m PNone)
      (get_or "configurationProfile" m PNone) = Ok config_path /\
    path_exists fs config_path = true /\
    reply_body (do_POST AGENT_PATH fs exn_str path request)
    = Some (evaluate_flag fs config_path (get_or "flagKey" m PNone)
              (get_or "context" m (PDict []))
              (get_or "defaultValue" m PNone)).
Proof.
  unfold do_POST. destruct (String.eqb_spec path "/evaluate") as [-> | Hne];
    [| discriminate].
  unfold handle_evaluate.
  destruct (handle_evaluate_try AGENT_PATH fs request) as [r | e] eqn:E.
  - apply handle_evaluate_try_ok in E
      as (m & -> & [[_ ->] | (Hall & cp & Hcp & [[_ ->] | [Hex ->]])]);
      try discriminate.
    intros _. split; [reflexivity |]. exists m, cp. repeat split; assumption.
  - destruct e; discriminate.
Qed.

Lemma evaluation_needs_resolved_request_witness :
  reply_body
    (do_POST None sample_fs no_message "/evaluate"
       (Ok (sample_request "beta" (user_with_role "admin"))))
  = Some (evaluate_flag sample_fs sample_path (PStr "beta")
            (user_with_role "admin") (PBool false)).
Proof.
  destruct (evaluation_needs_resolved_request None sample_fs no_message
              "/evaluate" (Ok (sample_request "beta" (user_with_role "admin")))
              eq_refl)
    as (_ & m & cp & Hreq & _ & Hcp & _ & Hbody).
  inversion Hreq; subst m. inversion Hcp; subst cp. exact Hbody.
Defined.

(** A reply of [do_GET] or [do_POST] either carries the JSON content
    type together with a body, or is the bare 404 sent for a path the
    method does not serve. *)
Theorem replies_are_json_or_bare_404 (AGENT_PATH : option string)
    (fs : file_system) (exn_str : exn -> string) (path : string)
    (request : exc pyval) :
  let served (r : reply) :=
    (reply_content_type r = Some "application/json" /\
     exists body, reply_body r = Some body) \/
    r = bare_not_found in
  served (do_GET path) /\
  served (do_POST AGENT_PATH fs exn_str path request) /\
  (do_GET path = bare_not_found <-> path <> "/health") /\
  (do_POST AGENT_PATH fs exn_str path request = bare_not_found
   <-> path <> "/evaluate").
Proof.
  cbn zeta. unfold do_GET, do_POST.
  destruct (String.eqb_spec path "/health") as [Hh | Hh];
    destruct (String.eqb_spec path "/evaluate") as [He | He];
    try (subst; discriminate);
    try destruct (handle_evaluate AGENT_PATH fs exn_str request);
    cbn [json_reply];
    repeat split; try tauto; try discriminate;
    try (left; split; [reflexivity | now eexists]);
    try (now right); intros; try congruence.
Qed.

(** ** The configuration path *)

Lemma append_assoc (a b c : string) :
  ((a ++ b) ++ c)%string = (a ++ (b ++ c))%string.
Proof.
  induction a as [| x a IH]; [reflexivity |].
  cbn [append]. now rewrite IH.
Qed.

Lemma append_nonempty_l (a b : string) : a <> "" -> (a ++ b)%string <> "".
Proof. destruct a; [congruence | discriminate]. Qed.

Lemma append_nonempty_r (a b : string) : b <> "" -> (a ++ b)%string <> "".
Proof. destruct a; [now cbn | discriminate]. Qed.

Lemma absolute_nonempty (b : string) : prefix "/" b = true -> b <> "".
Proof. now intros H ->. Qed.

Lemma ends_with_sep_split (s : string) :
  ends_with_sep s = true -> exists dir, s = (dir ++ "/")%string.
Proof.
  induction s as [| c s IH]; [discriminate |].
  cbn [ends_with_sep]. destruct s as [| c' s].
  - intros H. apply Ascii.eqb_eq in H. subst c. now exists "".
  - intros H. destruct (IH H) as [dir Hdir].
    exists (String c dir). cbn [append]. now rewrite <- Hdir.
Qed.

Lemma ends_with_sep_app (a b : string) :
  b <> "" -> ends_with_sep (a ++ b) = ends_with_sep b.
Proof.
  intros Hb. induction a as [| c a IH]; [reflexivity |].
  cbn [append ends_with_sep]. rewrite IH.
  destruct (a ++ b)%string eqn:E; [| reflexivity].
  now destruct (append_nonempty_r a b Hb).
Qed.

Lemma join_step_absolute (path b : string) :
  prefix "/" b = true -> join_step path b = b.
Proof. intros H. unfold join_step. now rewrite H. Qed.

Lemma join_step_relative (path b : string) :
  prefix "/" b = false ->
  join_step path b = (path ++ b)%string \/
  join_step path b = (path ++ "/" ++ b)%string.
Proof.
  intros H. unfold join_step. rewrite H.
  destruct (_ || _); [now left | now right].
Qed.

Lemma join_step_plain (path b : string) :
  path <> "" -> ends_with_sep path = false -> prefix "/" b = false ->
  join_step path b = (path ++ "/" ++ b)%string.
Proof.
  intros Hne Hend Hrel. unfold join_step. rewrite Hrel, Hend.
  destruct (String.eqb_spec path ""); [congruence | reflexivity].
Qed.

Lemma join_step_nonempty (path b : string) :
  path <> "" -> join_step path b <> "".
Proof.
  intros Hne. destruct (prefix "/" b) eqn:E.
  - rewrite (join_step_absolute _ _ E). now apply absolute_nonempty.
  - destruct (join_step_relative path b E) as [-> | ->];
      now apply append_nonempty_l.
Qed.

Lemma join_step_config_json (path : string) :
  path <> "" ->
  exists dir, join_step path "config.json" = (dir ++ "/config.json")%string.
Proof.
  intros Hne. unfold join_step. cbn [prefix].
  destruct (String.eqb_spec path ""); [congruence |]. cbn [orb].
  destruct (ends_with_sep path) eqn:E.
  - destruct (ends_with_sep_split _ E) as [dir ->].
    exists dir. now rewrite append_assoc.
  - now exists path.
Qed.

(** The last absolute component restarts the path: everything joined
    before it is dropped. *)
Lemma path_join_absolute (a b : string) (before after : list string) :
  prefix "/" b = true ->
  path_join a (before ++ b :: after) = path_join b after.
Proof.
  intros H. unfold path_join. rewrite fold_left_app. cbn [fold_left].
  now rewrite (join_step_absolute _ _ H).
Qed.

(** Whatever [AGENT_PATH] and the three string components are, the
    path returned names a file [config.json] inside a directory: it
    ends in [/config.json]. *)
Theorem config_path_ends_in_config_json (AGENT_PATH : option string)
    (application environment profile : string) :
  exists dir,
    get_config_path AGENT_PATH (PStr application) (PStr environment)
      (PStr profile)
    = Ok (dir ++ "/config.json")%string.
Proof.
  rewrite get_config_path_str. unfold path_join. cbn [fold_left].
  set (base := join_step (agent_path_of AGENT_PATH) "configs").
  assert (Hbase : base <> "").
  { subst base.
    destruct (join_step_relative (agent_path_of AGENT_PATH) "configs" eq_refl)
      as [-> | ->]; now apply append_nonempty_r. }
  destruct (join_step_config_json
              (join_step (join_step (join_step base application) environment)
                 profile)) as [dir ->].
  - do 3 apply join_step_nonempty. exact Hbase.
  - now exists dir.
Qed.

(** When none of the three components begins with [/], the path
    returned begins with the base directory. *)
Theorem relative_components_stay_under_base (AGENT_PATH : option string)
    (application environment profile : string) :
  prefix "/" application = false ->
  prefix "/" environment = false ->
  prefix "/" profile = false ->
  exists rest,
    get_config_path AGENT_PATH (PStr application) (PStr environment)
      (PStr profile)
    = Ok (agent_path_of AGENT_PATH ++ rest)%string.
Proof.
  intros Ha He Hp. rewrite get_config_path_str.
  unfold path_join. cbn [fold_left].
  assert (Hstep : forall path b, prefix "/" b = false ->
                  exists x, join_step path b = (path ++ x)%string).
  { intros path b Hb.
    destruct (join_step_relative path b Hb) as [-> | ->]; now eexists. }
  destruct (Hstep (agent_path_of AGENT_PATH) "configs" eq_refl) as [x1 ->].
  destruct (Hstep (agent_path_of AGENT_PATH ++ x1)%string application Ha)
    as [x2 ->].
  destruct (Hstep ((agent_path_of AGENT_PATH ++ x1) ++ x2)%string
              environment He) as [x3 ->].
  destruct (Hstep (((agent_path_of AGENT_PATH ++ x1) ++ x2) ++ x3)%string
              profile Hp) as [x4 ->].
  destruct (Hstep
              ((((agent_path_of AGENT_PATH ++ x1) ++ x2) ++ x3) ++ x4)%string
              "config.json" eq_refl) as [x5 ->].
  exists (x1 ++ x2 ++ x3 ++ x4 ++ x5)%string.
  now rewrite !append_assoc.
Qed.

Lemma relative_components_stay_under_base_witness :
  exists rest,
    get_config_path (Some "/srv/agent/") (PStr "shop") (PStr "../prod")
      (PStr "main/")
    = Ok ("/srv/agent/" ++ rest)%string.
Proof.
  exact (relative_components_stay_under_base (Some "/srv/agent/") "shop"
           "../prod" "main/" eq_refl eq_refl eq_refl).
Defined.

(** A profile that begins with [/] replaces everything before it: the
    base directory, [configs], the application and the environment do
    not appear in the path. *)
Theorem absolute_profile_replaces_base (AGENT_PATH : option string)
    (application environment profile : string) :
  prefix "/" profile = true ->
  ends_with_sep profile = false ->
  get_config_path AGENT_PATH (PStr application) (PStr environment)
    (PStr profile)
  = Ok (profile ++ "/config.json")%string.
Proof.
  intros Habs Hend. rewrite get_config_path_str.
  change ["configs"; application; environment; profile; "config.json"]
    with (["configs"; application; environment] ++ [profile; "config.json"]).
  rewrite (path_join_absolute (agent_path_of AGENT_PATH) profile
             ["configs"; application; environment] ["config.json"] Habs).
  unfold path_join. cbn [fold_left]. f_equal.
  apply join_step_plain; [now apply absolute_nonempty | exact Hend | reflexivity].
Qed.

Lemma absolute_profile_replaces_base_witness :
  get_config_path (Some "/srv/agent") (PStr "shop") (PStr "prod")
    (PStr "/tmp/other")
  = Ok "/tmp/other/config.json".
Proof.
  exact (absolute_profile_replaces_base (Some "/srv/agent") "shop" "prod"
           "/tmp/other" eq_refl eq_refl).
Defined.

Lemma plain_segment_facts (s : string) :
  plain_segment s = true ->
  s <> "" /\ prefix "/" s = false /\ ends_with_sep s = false.
Proof.
  unfold plain_segment. intros H.
  apply andb_true_iff in H as [H Hend]. apply andb_true_iff in H as [Hne Hrel].
  apply negb_true_iff in Hend, Hrel, Hne.
  apply String.eqb_neq in Hne. now repeat split.
Qed.

Lemma join_plain_segment (path s : string) :
  path <> "" -> ends_with_sep path = false -> plain_segment s = true ->
  join_step path s = (path ++ "/" ++ s)%string /\
  (path ++ "/" ++ s)%string <> "" /\
  ends_with_sep (path ++ "/" ++ s) = false.
Proof.
  intros Hne Hend Hs.
  destruct (plain_segment_facts _ Hs) as (Hs1 & Hs2 & Hs3).
  split; [now apply join_step_plain |]. split.
  - now apply append_nonempty_l.
  - rewrite ends_with_sep_app by discriminate.
    change ("/" ++ s)%string with (String "/" s). cbn [ends_with_sep].
    destruct s; [congruence | exact Hs3].
Qed.

(** The location convention: for a non-empty base directory without a
    trailing [/] and three components that are non-empty and neither
    begin nor end with [/], the path is
    [<base>/configs/<application>/<environment>/<profile>/config.json]. *)
Theorem config_path_convention (AGENT_PATH : option string)
    (application environment profile : string) :
  agent_path_of AGENT_PATH <> "" ->
  ends_with_sep (agent_path_of AGENT_PATH) = false ->
  plain_segment application = true ->
  plain_segment environment = true ->
  plain_segment profile = true ->
  get_config_path AGENT_PATH (PStr application) (PStr environment)
    (PStr profile)
  = Ok (agent_path_of AGENT_PATH ++ "/configs/" ++ application ++ "/"
        ++ environment ++ "/" ++ profile ++ "/config.json")%string.
Proof.
  intros Hne Hend Ha He Hp. rewrite get_config_path_str.
  unfold path_join. cbn [fold_left].
  destruct (join_plain_segment _ "configs" Hne Hend eq_refl) as (-> & N1 & E1).
  destruct (join_plain_segment _ application N1 E1 Ha) as (-> & N2 & E2).
  destruct (join_plain_segment _ environment N2 E2 He) as (-> & N3 & E3).
  destruct (join_plain_segment _ profile N3 E3 Hp) as (-> & N4 & E4).
  destruct (join_plain_segment _ "config.json" N4 E4 eq_refl) as (-> & _ & _).
  now rewrite !append_assoc.
Qed.

Lemma config_path_convention_witness :
  get_config_path None (PStr "shop") (PStr "prod") (PStr "main")
  = Ok sample_path.
Proof.
  refine (config_path_convention None "shop" "prod" "main" _ eq_refl eq_refl
            eq_refl eq_refl).
  discriminate.
Defined.

(** ** The results of evaluate_flag *)

Ltac result_shape :=
  eexists _, _;
  split; [reflexivity |];
  split; [simpl; tauto |];
  intros [H | H]; first [reflexivity | discriminate H].

(** Every result of [evaluate_flag] is [{value, reason}] with one of
    the four reason codes, and a result with reason [FLAG_NOT_FOUND] or
    [ERROR] carries the caller's default as its value. *)
Theorem evaluate_flag_result_shape (fs : file_system) (config_path : string)
    (flag_key context default_value : pyval) :
  exists v reason,
    evaluate_flag fs config_path flag_key context default_value
    = result v reason /\
    In reason reason_codes /\
    (reason = "FLAG_NOT_FOUND" \/ reason = "ERROR" -> v = default_value).
Proof.
  unfold evaluate_flag, evaluate_flag_try, reason_codes.
  destruct (load_config fs config_path) as [config_data | e]; cbn [bind];
    [| result_shape].
  unfold evaluate_document.
  destruct (py_get config_data _ _) as [features | e]; cbn [bind];
    [| result_shape].
  destruct (py_get features _ _) as [flag_config | e]; cbn [bind];
    [| result_shape].
  destruct (negb (truthy flag_config)); [result_shape |].
  destruct (py_get flag_config (PStr "default") _) as [flag_default | e];
    cbn [bind]; [| result_shape].
  destruct (py_get flag_config (PStr "rules") _) as [rules | e]; cbn [bind];
    [| result_shape].
  destruct (py_iter rules) as [items | e]; cbn [bind]; [| result_shape].
  destruct (evaluate_rules items context) as [[v |] | e]; cbn [bind];
    result_shape.
Qed.

(** The result for a flag depends on the document only through the
    entry of [features] under that flag's key: two documents that
    agree there give the same result, whatever else they hold. *)
Theorem other_flags_do_not_interfere (fs1 fs2 : file_system)
    (path1 path2 : string) (config1 config2 features1 features2 :
      list (string * pyval))
    (k : string) (context default_value : pyval) :
  fs1 path1 = Document (PDict config1) ->
  fs2 path2 = Document (PDict config2) ->
  features_of config1 = Some features1 ->
  features_of config2 = Some features2 ->
  dict_lookup k features1 = dict_lookup k features2 ->
  evaluate_flag fs1 path1 (PStr k) context default_value
  = evaluate_flag fs2 path2 (PStr k) context default_value.
Proof.
  intros Hd1 Hd2 Hf1 Hf2 Hk.
  rewrite (evaluate_flag_loaded _ _ _ _ _ _ Hd1),
    (evaluate_flag_loaded _ _ _ _ _ _ Hd2).
  unfold evaluate_document.
  rewrite (py_get_features _ _ Hf1), (py_get_features _ _ Hf2).
  cbn [bind]. rewrite !py_get_dict.
  assert (Hsame : get_or k features1 PNone = get_or k features2 PNone)
    by (unfold get_or; now rewrite Hk).
  now rewrite Hsame.
Qed.

Lemma other_flags_do_not_interfere_witness :
  evaluate_flag sample_fs sample_path (PStr "beta") (user_with_role "admin")
    PNone
  = evaluate_flag other_fs "elsewhere" (PStr "beta") (user_with_role "admin")
      PNone.
Proof.
  exact (other_flags_do_not_interfere sample_fs other_fs sample_path
           "elsewhere" sample_config other_config sample_features
           other_features "beta" (user_with_role "admin") PNone
           eq_refl eq_refl eq_refl eq_refl eq_refl).
Defined.

(** An entry of [features] that is truthy but not an object, such as
    [true], a number, a non-empty string or list, is not read as the
    flag's value: the call ends in [ERROR] with the caller's default. *)
Theorem scalar_flag_definition_is_error (fs : file_system)
    (config_path : string) (config_data features : list (string * pyval))
    (k : string) (definition context default_value : pyval) :
  fs config_path = Document (PDict config_data) ->
  features_of config_data = Some features ->
  dict_lookup k features = Some definition ->
  truthy definition = true ->
  (forall m, definition <> PDict m) ->
  evaluate_flag fs config_path (PStr k) context default_value
  = result default_value "ERROR".
Proof.
  intros Hdoc Hfeat Hk Htruthy Hshape.
  rewrite (evaluate_flag_loaded _ _ _ _ _ _ Hdoc).
  unfold evaluate_document. rewrite (py_get_features _ _ Hfeat).
  cbn [bind]. rewrite py_get_dict. unfold get_or. rewrite Hk.
  cbn [bind]. rewrite Htruthy. cbn [negb].
  destruct definition; try reflexivity. now destruct (Hshape m).
Qed.

Lemma scalar_flag_definition_is_error_witness :
  evaluate_flag
    (fun _ => Document (PDict [("features", PDict [("beta", PBool true)])]))
    sample_path (PStr "beta") (PDict []) (PBool false)
  = result (PBool false) "ERROR".
Proof.
  refine (scalar_flag_definition_is_error _ sample_path
            [("features", PDict [("beta", PBool true)])]
            [("beta", PBool true)] "beta" (PBool true) (PDict []) (PBool false)
            eq_refl eq_refl eq_refl eq_refl _).
  discriminate.
Defined.

(** A flag key that is not a string is never found: a hashable key
    gives [FLAG_NOT_FOUND], a list or an object as key makes the lookup
    raise and gives [ERROR]. *)
Theorem non_string_flag_key (fs : file_system) (config_path : string)
    (config_data features : list (string * pyval))
    (flag_key context default_value : pyval) :
  fs config_path = Document (PDict config_data) ->
  features_of config_data = Some features ->
  is_str flag_key = false ->
  evaluate_flag fs config_path flag_key context default_value
  = result default_value
      (if hashable flag_key then "FLAG_NOT_FOUND" else "ERROR").
Proof.
  intros Hdoc Hfeat Hkey.
  rewrite (evaluate_flag_loaded _ _ _ _ _ _ Hdoc).
  unfold evaluate_document. rewrite (py_get_features _ _ Hfeat).
  cbn [bind]. destruct flag_key; try discriminate; reflexivity.
Qed.

Lemma non_string_flag_key_witness :
  evaluate_flag sample_fs sample_path (PInt 1) (PDict []) (PInt 4)
  = result (PInt 4) "FLAG_NOT_FOUND" /\
  evaluate_flag sample_fs sample_path (PList [PStr "beta"]) (PDict []) (PInt 4)
  = result (PInt 4) "ERROR".
Proof.
  split.
  - exact (non_string_flag_key sample_fs sample_path sample_config
             sample_features (PInt 1) (PDict []) (PInt 4)
             eq_refl eq_refl eq_refl).
  - exact (non_string_flag_key sample_fs sample_path sample_config
             sample_features (PList [PStr "beta"]) (PDict []) (PInt 4)
             eq_refl eq_refl eq_refl).
Defined.

Lemma features_of_none (config_data : list (string * pyval)) :
  features_of config_data = None ->
  exists v,
    dict_lookup "features" config_data = Some v /\ forall m, v <> PDict m.
Proof.
  unfold features_of.
  destruct (dict_lookup "features" config_data) as [v |]; [| discriminate].
  intros H. exists v. split; [reflexivity |].
  intros m ->. discriminate H.
Qed.

(** Unless the file at the path holds a JSON object whose [features]
    entry is absent or an object, the call ends in [ERROR] with the
    caller's default: a missing, unreadable or malformed file, a
    document that is a list or a scalar, and [features] set to null,
    a list or a scalar all do. *)
Theorem unusable_document_is_error (fs : file_system) (config_path : string)
    (flag_key context default_value : pyval) :
  (forall config_data,
     fs config_path = Document (PDict config_data) ->
     features_of config_data = None) ->
  evaluate_flag fs config_path flag_key context default_value
  = result default_value "ERROR".
Proof.
  intros H. unfold evaluate_flag, evaluate_flag_try, load_config.
  destruct (fs config_path) as [| | | config_data] eqn:E; try reflexivity.
  cbn [bind]. destruct config_data; try reflexivity.
  destruct (features_of_none _ (H m eq_refl)) as (v & Hv & Hshape).
  unfold evaluate_document. rewrite py_get_dict. unfold get_or. rewrite Hv.
  cbn [bind]. destruct v; try reflexivity. now destruct (Hshape m0).
Qed.

Lemma unusable_document_is_error_witness :
  evaluate_flag (fun _ => Document (PDict [("features", PNone)])) sample_path
    (PStr "beta") (PDict []) (PInt 4)
  = result (PInt 4) "ERROR".
Proof.
  refine (unusable_document_is_error
            (fun _ => Document (PDict [("features", PNone)])) sample_path
            (PStr "beta") (PDict []) (PInt 4) _).
  intros config_data H. inversion H. reflexivity.
Defined.

(** ** Rules and defaults *)

Lemma failing_rule_gives_error_witness :
  evaluate_flag
    (fun _ =>
       Document
         (PDict
            [("features",
               PDict
                 [("f",
                    PDict
                      [("default", PInt 1);
                       ("rules",
                         PList [rule_of admin_condition (PInt 2);
                                PStr "always";
                                PDict [("value", PInt 3)]])])])]))
    sample_path (PStr "f") (user_with_role "guest") (PInt 9)
  = result (PInt 9) "ERROR".
Proof.
  refine (failing_rule_gives_error _ sample_path
            [("features",
               PDict
                 [("f",
                    PDict
                      [("default", PInt 1);
                       ("rules",
                         PList [rule_of admin_condition (PInt 2);
                                PStr "always";
                                PDict [("value", PInt 3)]])])])]
            [("f",
               PDict
                 [("default", PInt 1);
                  ("rules",
                    PList [rule_of admin_condition (PInt 2);
                           PStr "always";
                           PDict [("value", PInt 3)]])])]
            [("default", PInt 1);
             ("rules",
               PList [rule_of admin_condition (PInt 2);
                      PStr "always";
                      PDict [("value", PInt 3)]])]
            "f" eq_refl eq_refl eq_refl _
            [rule_of admin_condition (PInt 2)] [PDict [("value", PInt 3)]]
            (PStr "always") (user_with_role "guest") (PInt 9) AttributeError
            eq_refl _ eq_refl).
  - discriminate.
  - constructor; [reflexivity | constructor].
Defined.

(** When no rule of a flag matches, also when the flag has no [rules]
    key, the result has reason [DEFAULT] and its value is the flag's
    [default] entry whenever the key is present, even if it holds null,
    and the caller's default only when the key is absent. *)
Theorem default_when_no_rule_matches (fs : file_system) (config_path : string)
    (config_data features flag_config : list (string * pyval)) (k : string)
    (rules : list pyval) (context default_value : pyval) :
  fs config_path = Document (PDict config_data) ->
  features_of config_data = Some features ->
  dict_lookup k features = Some (PDict flag_config) ->
  flag_config <> [] ->
  get_or "rules" flag_config (PList []) = PList rules ->
  Forall (fun rule => rule_matches rule context = Ok false) rules ->
  evaluate_flag fs config_path (PStr k) context default_value
  = result
      match dict_lookup "default" flag_config with
      | Some flag_default => flag_default
      | None => default_value
      end "DEFAULT".
Proof.
  intros Hdoc Hfeat Hflag Hne Hrules Hnone.
  rewrite (evaluate_flag_defined _ _ _ _ _ _ Hdoc Hfeat Hflag Hne).
  unfold run_rules. rewrite Hrules. cbn [py_iter bind].
  now rewrite (evaluate_rules_no_match _ _ Hnone).
Qed.

Lemma default_when_no_rule_matches_witness :
  evaluate_flag
    (fun _ =>
       Document
         (PDict [("features", PDict [("f", PDict [("default", PNone)])])]))
    sample_path (PStr "f") (PDict []) (PInt 9)
  = result PNone "DEFAULT".
Proof.
  refine (default_when_no_rule_matches _ sample_path
            [("features", PDict [("f", PDict [("default", PNone)])])]
            [("f", PDict [("default", PNone)])] [("default", PNone)] "f" []
            (PDict []) (PInt 9) eq_refl eq_refl eq_refl _ eq_refl _).
  - discriminate.
  - constructor.
Defined.

(** A [rules] entry that is not a list ends in [ERROR], except for the
    empty string and the empty object, over which the loop does not
    run: null, a number, [true], a non-empty string and a non-empty
    object all give [ERROR] with the caller's default. *)
Theorem non_list_rules_is_error (fs : file_system) (config_path : string)
    (config_data features flag_config : list (string * pyval)) (k : string)
    (rules context default_value : pyval) :
  fs config_path = Document (PDict config_data) ->
  features_of config_data = Some features ->
  dict_lookup k features = Some (PDict flag_config) ->
  dict_lookup "rules" flag_config = Some rules ->
  (forall l, rules <> PList l) ->
  rules <> PStr "" ->
  rules <> PDict [] ->
  evaluate_flag fs config_path (PStr k) context default_value
  = result default_value "ERROR".
Proof.
  intros Hdoc Hfeat Hflag Hrules Hlist Hstr Hdict.
  assert (Hne : flag_config <> []) by (intros ->; discriminate Hrules).
  rewrite (evaluate_flag_defined _ _ _ _ _ _ Hdoc Hfeat Hflag Hne).
  unfold run_rules, get_or. rewrite Hrules.
  destruct rules as [| | | | s | l | m]; try reflexivity.
  - destruct s; [congruence | reflexivity].
  - now destruct (Hlist l).
  - destruct m; [congruence | reflexivity].
Qed.

Lemma non_list_rules_is_error_witness :
  evaluate_flag
    (fun _ =>
       Document
         (PDict
            [("features",
               PDict [("f", PDict [("default", PInt 1); ("rules", PNone)])])]))
    sample_path (PStr "f") (PDict []) (PInt 9)
  = result (PInt 9) "ERROR".
Proof.
  refine (non_list_rules_is_error _ sample_path
            [("features",
               PDict [("f", PDict [("default", PInt 1); ("rules", PNone)])])]
            [("f", PDict [("default", PInt 1); ("rules", PNone)])]
            [("default", PInt 1); ("rules", PNone)] "f" PNone (PDict [])
            (PInt 9) eq_refl eq_refl eq_refl eq_refl _ _ _); discriminate.
Defined.

(** ** Which conditions match, and which raise *)

Lemma split_second_piece (q : ascii) (s : string) :
  str_contains (String q "") s = true ->
  exists piece, py_index (str_split q s) 1 = Ok piece.
Proof.
  induction s as [| c s IH]; [discriminate |].
  rewrite has_char_cons. cbn [str_split].
  destruct (Ascii.eqb c q); cbn [orb].
  - intros _. pose proof (str_split_nonempty q s) as Hne.
    destruct (str_split q s) as [| piece pieces]; [congruence |].
    now exists piece.
  - intros H. destruct (IH H) as [piece Hpiece].
    destruct (str_split q s) as [| first pieces]; [discriminate |].
    now exists piece.
Qed.

(** For a condition string and a context whose [user] entry, when
    present, is a mapping, matching raises exactly when the condition
    contains [user.role ==] and no quote character of either kind. *)
Theorem condition_raises_only_unquoted (s : string)
    (context : list (string * pyval)) :
  user_is_mapping context = true ->
  (exists e, evaluate_condition (PStr s) (PDict context) = Raise e) <->
  str_contains "user.role ==" s = true /\
  str_contains (String dquote "") s = false /\
  str_contains (String squote "") s = false.
Proof.
  intros Hu. split.
  - intros [e He].
    destruct (str_contains "user.role ==" s) eqn:Hc.
    + rewrite (evaluate_condition_recognised _ _ Hc Hu) in He.
      split; [reflexivity |].
      destruct (str_contains (String dquote "") s) eqn:Hd.
      * destruct (split_second_piece _ _ Hd) as [piece Hp].
        rewrite Hp in He. discriminate He.
      * split; [reflexivity |].
        destruct (str_contains (String squote "") s) eqn:Hs; [| reflexivity].
        destruct (split_second_piece _ _ Hs) as [piece Hp].
        rewrite Hp in He. discriminate He.
    + destruct (String.eqb_spec s "") as [-> | Hne]; [discriminate He |].
      rewrite (evaluate_condition_other _ _ Hne Hc) in He. discriminate He.
  - intros (Hc & Hd & Hs). exists IndexError.
    now apply unquoted_condition_raises.
Qed.

Lemma condition_raises_only_unquoted_witness :
  exists e,
    evaluate_condition (PStr "user.role == admin") (user_with_role "admin")
    = Raise e.
Proof.
  apply (proj2 (condition_raises_only_unquoted "user.role == admin"
                  [("user", PDict [("role", PStr "admin")])] eq_refl)).
  repeat split.
Defined.

(** The literal a recognised condition is compared with is the text
    between its first two double quotes; what precedes and follows it,
    single-quoted text included, plays no part beyond containing
    [user.role ==]. *)
Theorem first_double_quoted_text_is_compared (pre literal post : string)
    (context : list (string * pyval)) :
  str_contains "user.role =="
    (pre ++ String dquote (literal ++ String dquote post)) = true ->
  str_contains (String dquote "") pre = false ->
  str_contains (String dquote "") literal = false ->
  user_is_mapping context = true ->
  evaluate_condition
    (PStr (pre ++ String dquote (literal ++ String dquote post)))
    (PDict context)
  = Ok (py_eq_str (role_of context) literal).
Proof.
  intros Hc Hpre Hlit Hu.
  rewrite (evaluate_condition_recognised _ _ Hc Hu).
  rewrite has_char_app, Hpre, has_char_cons, Ascii.eqb_refl. cbn [orb].
  now rewrite (split_quoted _ _ _ _ Hpre Hlit).
Qed.

Lemma first_double_quoted_text_is_compared_witness :
  evaluate_condition
    (PStr ("user.role == 'guest' or team == "
           ++ String dquote ("admin" ++ String dquote " or more")))
    (user_with_role "admin")
  = Ok true.
Proof.
  exact (first_double_quoted_text_is_compared
           "user.role == 'guest' or team == " "admin" " or more"
           [("user", PDict [("role", PStr "admin")])]
           eq_refl eq_refl eq_refl eq_refl).
Defined.

(** A condition that is present and truthy matches only when it is a
    string containing [user.role ==], the context is a mapping, and the
    value at [user] then [role] is a string equal to the second piece
    of the condition split at its quote character.  No other condition
    value, and no context without a string role, yields a match. *)
Theorem match_needs_string_role (condition context : pyval) :
  truthy condition = true ->
  evaluate_condition condition context = Ok true ->
  exists s m role,
    condition = PStr s /\
    context = PDict m /\
    str_contains "user.role ==" s = true /\
    resolve_path ["user"; "role"] context = Some (PStr role) /\
    py_index
      (str_split (if str_contains (String dquote "") s then dquote else squote)
         s) 1
    = Ok role.
Proof.
  intros Ht. unfold evaluate_condition. rewrite Ht. cbn [negb].
  destruct condition as [| | | | s | l | d]; cbn [py_in bind];
    try discriminate.
  - destruct (str_contains "user.role ==" s) eqn:Hc; [| discriminate].
    cbn [py_split bind].
    destruct (py_index _ 1) as [expected | e] eqn:Hp; cbn [bind];
      [| discriminate].
    destruct context as [| | | | | | m]; try discriminate.
    rewrite py_get_dict. cbn [bind]. unfold get_or at 1.
    destruct (dict_lookup "user" m) as [user |] eqn:Hu.
    + destruct user as [| | | | | | u]; try discriminate.
      rewrite py_get_dict. cbn [bind]. intros H. injection H as Heq.
      apply py_eq_str_true in Heq.
      exists s, m, expected. repeat split; try assumption.
      cbn [resolve_path]. rewrite Hu. unfold get_or in Heq.
      destruct (dict_lookup "role" u); [now subst | discriminate].
    + rewrite py_get_dict. discriminate.
  - destruct (existsb _ l); cbn [bind]; discriminate.
  - destruct (existsb _ d); cbn [bind]; discriminate.
Qed.

Lemma match_needs_string_role_witness :
  exists s m role,
    PStr admin_condition = PStr s /\
    user_with_role "admin" = PDict m /\
    str_contains "user.role ==" s = true /\
    resolve_path ["user"; "role"] (user_with_role "admin") = Some (PStr role) /\
    py_index
      (str_split (if str_contains (String dquote "") s then dquote else squote)
         s) 1
    = Ok role.
Proof.
  exact (match_needs_string_role (PStr admin_condition)
           (user_with_role "admin") eq_refl eq_refl).
Defined.

(** ** Inputs outside the first-match and missing-path statements *)

(** The context holds the literal at the condition's path and the
    condition does not match: once for a path other than [user.role],
    once for a single-quoted literal that contains a double quote, where
    the code splits at the double quote and compares the role with the
    text after it. *)
Lemma other_path_and_nested_quote_not_matched :
  (resolve_path ["tenant"; "plan"] tenant_context = Some (PStr "pro") /\
   evaluate_condition (PStr (equality_condition "tenant.plan" dquote "pro"))
     tenant_context = Ok false) /\
  (resolve_path ["user"; "role"] (user_with_role nested_quote_literal)
   = Some (PStr nested_quote_literal) /\
   evaluate_condition (PStr nested_quote_condition)
     (user_with_role nested_quote_literal) = Ok false /\
   evaluate_condition (PStr nested_quote_condition) (user_with_role "b'")
   = Ok true).
Proof.
  repeat split; reflexivity.
Qed.

(** The rule list of [guarded] contains a rule that matches the
    context [{"user": null}], with value 2; the rule before it raises,
    and [evaluate_flag] returns [ERROR] with the caller's default. *)
Lemma earlier_raising_rule_hides_match :
  dict_lookup "guarded" guarded_features
  = Some (PDict [("default", PInt 0);
                 ("rules",
                   PList [rule_of admin_condition (PInt 1);
                          PDict [("value", PInt 2)]])]) /\
  rule_matches (rule_of admin_condition (PInt 1)) null_user
  = Raise AttributeError /\
  rule_matches (PDict [("value", PInt 2)]) null_user = Ok true /\
  evaluate_flag guarded_fs sample_path (PStr "guarded") null_user (PInt 9)
  = result (PInt 9) "ERROR".
Proof.
  repeat split; reflexivity.
Qed.

(** The earliest rule of [silent] that matches the context
    [{"user": null}] has no [value] key; the rule before it raises, and
    [evaluate_flag] returns [ERROR] with the caller's default, not
    null with [TARGETING_MATCH]. *)
Lemma earlier_raising_rule_hides_null_value :
  dict_lookup "silent" guarded_features
  = Some (PDict [("default", PInt 0);
                 ("rules",
                   PList [rule_of admin_condition (PInt 1);
                          PDict [("note", PStr "catch-all")]])]) /\
  rule_matches (rule_of admin_condition (PInt 1)) null_user
  = Raise AttributeError /\
  rule_matches (PDict [("note", PStr "catch-all")]) null_user = Ok true /\
  dict_lookup "value" [("note", PStr "catch-all")] = None /\
  evaluate_flag guarded_fs sample_path (PStr "silent") null_user (PInt 9)
  = result (PInt 9) "ERROR".
Proof.
  repeat split; reflexivity.
Qed.

